(** * atom/browser/api/atom_api_protocol.cc

    A shallow embedding of the protocol registry of the browser process
    ([atom::api::Protocol]), of the factory-facing [CustomProtocolHandler]
    and of the adapter job [CustomProtocolRequestJob], followed by the
    properties of the registry operations and of the job dispatch.

    The registry runs on two threads.  Every public operation is a chain
    of tasks posted between the UI thread (the registry map, the
    JavaScript handlers and callbacks) and the IO thread (the job
    factory).  The embedding is the run of ONE operation with nothing
    interleaved: a task posted with a reply runs, and then its reply
    runs.  Every step appends what it did to a trace, so that the order
    of the steps of an operation can be stated. *)

From Stdlib Require Import ZArith.
From stdpp Require Import gmap strings list.

Local Open Scope string_scope.
Local Open Scope list_scope.
Set Warnings "-register-all".

(** ** Values handed over by JavaScript *)

Module v8.

(** The JavaScript values that [GetJobTypeInUI] tells apart: strings,
    objects with the name of their constructor and their properties, node
    buffers (objects as well) and everything else. *)
Inductive Value :=
| Undefined
| Null
| Boolean (b : bool)
| Number (n : Z)
| String (s : string)
| Object (constructor_name : string) (properties : list (string * Value))
| Buffer (constructor_name : string) (contents : list Byte.byte).

Definition IsString (v : Value) : bool :=
  match v with String _ => true | _ => false end.

Definition IsObject (v : Value) : bool :=
  match v with Object _ _ | Buffer _ _ => true | _ => false end.

Definition IsInt32 (v : Value) : bool :=
  match v with
  | Number n => bool_decide (-2147483648 ≤ n ≤ 2147483647)%Z
  | _ => false
  end.

Definition GetConstructorName (v : Value) : string :=
  match v with
  | Object name _ | Buffer name _ => name
  | _ => ""
  end.

Definition Properties (v : Value) : list (string * Value) :=
  match v with Object _ properties => properties | _ => [] end.

End v8.

(** ** The pieces of the network stack the file talks to *)

Module net.

(** [net::ERR_NOT_IMPLEMENTED], declared in net/base/net_error_list.h. *)
Definition ERR_NOT_IMPLEMENTED : Z := (-11)%Z.

Record GURL := { scheme : string; spec : string }.

Record URLRequest := { method : string; url : GURL; referrer : string }.

(** [net::URLRequestJobFactory::ProtocolHandler].  A handler is either one
    of the network stack (told apart by [id]) or the
    [CustomProtocolHandler] of this file, which owns ([scoped_ptr]) the
    handler it wraps, if any. *)
Inductive ProtocolHandler :=
| NetworkHandler (id : N)
| CustomProtocolHandler (protocol_handler_ : option ProtocolHandler).

(** The jobs a request can end up with.  [CustomProtocolRequestJob] is the
    adapter that [CustomProtocolHandler::MaybeCreateJob] returns at once;
    it borrows the wrapped handler of its creator. *)
Inductive URLRequestJob :=
| URLRequestStringJob (mime_type charset data : string)
| URLRequestBufferJob (mime_type encoding : string) (data : list Byte.byte)
| URLRequestFileJob (path : string)
| URLRequestErrorJob (error : Z)
| URLRequestHttpJob (url method referrer : string)
| NetworkJob (id : N) (request : URLRequest)
| CustomProtocolRequestJob (default_protocol_handler : option ProtocolHandler)
                           (request : URLRequest).

End net.

Export net.

(** [original_handler()] and what [ReleaseDefaultProtocolHandler()]
    returns: the wrapped handler. *)
Definition original_handler (protocol_handler_ : option ProtocolHandler)
  : option ProtocolHandler := protocol_handler_.

(** The objects that go away when a handler is deleted: the handler and,
    through its [scoped_ptr], the handler it still owns. *)
Fixpoint destroyed (h : ProtocolHandler) : list ProtocolHandler :=
  h :: match h with
       | CustomProtocolHandler (Some wrapped) => destroyed wrapped
       | _ => []
       end.

(** [MaybeCreateJob]: the custom handler always returns a fresh adapter
    job that borrows [protocol_handler_.get()]; a handler of the network
    stack returns a job of its own. *)
Definition MaybeCreateJob (h : ProtocolHandler) (request : URLRequest)
  : URLRequestJob :=
  match h with
  | CustomProtocolHandler protocol_handler_ =>
      CustomProtocolRequestJob protocol_handler_ request
  | NetworkHandler id => NetworkJob id request
  end.

(** ** The job factory of the IO thread *)

Module AtomURLRequestJobFactory.

(** Modelled from the spec: atom/browser/net/atom_url_request_job_factory
    is not part of the sources.  The factory keeps one handler per scheme
    (section 6: SetHandler, GetHandler, ReplaceHandler, IsHandledScheme);
    [net_handled_] holds the schemes the network stack classifies as
    handled without an entry of the factory. *)
Record t := {
  protocol_handler_map_ : gmap string ProtocolHandler;
  net_handled_ : gset string
}.

(** Modelled from the spec: "reports [an] existing handler for the
    scheme". *)
Definition HasProtocolHandler (scheme : string) (f : t) : bool :=
  bool_decide (is_Some (protocol_handler_map_ f !! scheme)).

(** Modelled from the spec: "answers whether any handler (built-in or
    custom) currently serves the scheme". *)
Definition IsHandledProtocol (scheme : string) (f : t) : bool :=
  HasProtocolHandler scheme f || bool_decide (scheme ∈ net_handled_ f).

(** Modelled from the spec: GetHandler(scheme), handler-or-null. *)
Definition GetProtocolHandler (scheme : string) (f : t)
  : option ProtocolHandler :=
  protocol_handler_map_ f !! scheme.

(** Modelled from the spec: SetHandler(scheme, handler-or-null).  With
    null the entry is dropped, and the handler that lived there is
    returned to be destroyed ("lives exactly as long as its scheme entry
    in the factory"). *)
Definition SetProtocolHandler (scheme : string) (h : option ProtocolHandler)
    (f : t) : option ProtocolHandler * t :=
  match h with
  | None =>
      (protocol_handler_map_ f !! scheme,
       {| protocol_handler_map_ := delete scheme (protocol_handler_map_ f);
          net_handled_ := net_handled_ f |})
  | Some handler =>
      (None,
       {| protocol_handler_map_ := <[scheme := handler]> (protocol_handler_map_ f);
          net_handled_ := net_handled_ f |})
  end.

(** Modelled from the spec: ReplaceHandler(scheme, handler), returning the
    previous handler, which now belongs to the caller. *)
Definition ReplaceProtocol (scheme : string) (handler : ProtocolHandler)
    (f : t) : option ProtocolHandler * t :=
  (protocol_handler_map_ f !! scheme,
   {| protocol_handler_map_ := <[scheme := handler]> (protocol_handler_map_ f);
      net_handled_ := net_handled_ f |}).

(** Modelled from the spec: MaybeCreateJob(request), the job of the
    handler that serves the scheme of the request. *)
Definition MaybeCreateJobWithProtocolHandler (request : URLRequest) (f : t)
  : option URLRequestJob :=
  (λ h, MaybeCreateJob h request) <$> protocol_handler_map_ f !! scheme (url request).

End AtomURLRequestJobFactory.

(** ** Handlers, callbacks and the two-thread world *)

(** [Protocol::JsProtocolHandler], a [base::Callback] from the request to
    the decision value.  A default-constructed callback is null. *)
Inductive JsProtocolHandler :=
| NullHandler
| JsHandler (run : URLRequest → v8.Value).

(** [Protocol::JsCompletionCallback]: the JavaScript function of the
    caller, told apart by a number. *)
Definition JsCompletionCallback := nat.

(** [v8::Exception::Error(message)]. *)
Definition Exception_Error (message : string) : v8.Value :=
  v8.Object "Error" [("message", v8.String message)].

(** The four errors of the registry, with the messages of the source. *)
Definition AlreadyHandled : v8.Value :=
  Exception_Error "The Scheme is already registered".
Definition NotHandled : v8.Value :=
  Exception_Error "Scheme does not exist.".
Definition CannotInterceptCustom : v8.Value :=
  Exception_Error "Cannot intercept custom protocols.".
Definition NotRegistered : v8.Value :=
  Exception_Error "The Scheme has not been registered".

(** What one step did, in the order the steps ran.  [Io...] steps run on
    the IO thread, [Ui...] steps on the UI thread. *)
Inductive Event :=
| IoQuery (scheme : string) (answer : bool)
| UiMapAssign (scheme : string) (handler : JsProtocolHandler)
| UiMapErase (scheme : string)
| IoSetProtocolHandler (scheme : string) (handler : option ProtocolHandler)
| IoReplaceProtocol (scheme : string) (handler : ProtocolHandler)
| IoRelease (scheme : string) (released : ProtocolHandler)
| IoDelete (handler : ProtocolHandler)
| UiRun (callback : JsCompletionCallback) (arg : v8.Value).

(** The state of [api::Protocol] and of the factory it points to. *)
Record World := {
  protocol_handlers_ : gmap string JsProtocolHandler;
  job_factory_ : AtomURLRequestJobFactory.t;
  trace : list Event
}.

(** How a run can stop for good: the [NOTREACHED()] assertion, which the
    design treats as unrecoverable, or a step whose behaviour C++ leaves
    undefined. *)
Inductive Fatal :=
| NOTREACHED
| NullPointerDereference
| BadStaticCast
| NullCallbackRun
| NotANodeBuffer.

Inductive Outcome (A : Type) :=
| Returns (a : A) (w : World)
| Dies (why : Fatal) (w : World).
Arguments Returns {A} a w.
Arguments Dies {A} why w.

(** A task: a state transformer that may stop the process. *)
Definition Task (A : Type) : Type := World → Outcome A.

#[global] Instance Task_ret : MRet Task := λ A a w, Returns a w.
#[global] Instance Task_bind : MBind Task := λ A B f m w,
  match m w with
  | Returns a w' => f a w'
  | Dies why w' => Dies why w'
  end.

Definition die {A} (why : Fatal) : Task A := λ w, Dies why w.

Definition emit (e : Event) : Task unit := λ w,
  Returns tt {| protocol_handlers_ := protocol_handlers_ w;
                job_factory_ := job_factory_ w;
                trace := trace w ++ [e] |}.

Definition read_map : Task (gmap string JsProtocolHandler) :=
  λ w, Returns (protocol_handlers_ w) w.

Definition write_map (m : gmap string JsProtocolHandler) : Task unit := λ w,
  Returns tt {| protocol_handlers_ := m;
                job_factory_ := job_factory_ w;
                trace := trace w |}.

Definition read_factory : Task AtomURLRequestJobFactory.t :=
  λ w, Returns (job_factory_ w) w.

Definition write_factory (f : AtomURLRequestJobFactory.t) : Task unit := λ w,
  Returns tt {| protocol_handlers_ := protocol_handlers_ w;
                job_factory_ := f;
                trace := trace w |}.

(** [BrowserThread::PostTaskAndReply] and
    [BrowserThread::PostTaskAndReplyWithResult]: the task runs on the IO
    thread, and when it has run the reply runs on the posting thread.  A
    task that stops the process has no reply. *)
Definition PostTaskAndReply (task reply : Task unit) : Task unit :=
  task ;; reply.

Definition PostTaskAndReplyWithResult {A} (task : Task A) (reply : A → Task unit)
  : Task unit :=
  result ← task; reply result.

(** [callback.Run(arg)] on a completion callback. *)
Definition Run (callback : JsCompletionCallback) (arg : v8.Value) : Task unit :=
  emit (UiRun callback arg).

(** *** The registry map, a [std::map] *)

(** [ContainsKey(protocol_handlers_, scheme)] and
    [protocol_handlers_.find(scheme) != end()]. *)
Definition ContainsKey (scheme : string) : Task bool :=
  m ← read_map; mret (bool_decide (is_Some (m !! scheme))).

(** [protocol_handlers_[scheme]]: [operator[]] of [std::map] inserts a
    default-constructed value when the key is missing. *)
Definition subscript (scheme : string) : Task JsProtocolHandler :=
  m ← read_map;
  match m !! scheme with
  | Some handler => mret handler
  | None =>
      write_map (<[scheme := NullHandler]> m) ;;
      emit (UiMapAssign scheme NullHandler) ;;
      mret NullHandler
  end.

(** [protocol_handlers_[scheme] = handler]. *)
Definition assign (scheme : string) (handler : JsProtocolHandler) : Task unit :=
  m ← read_map;
  write_map (<[scheme := handler]> m) ;;
  emit (UiMapAssign scheme handler).

(** [protocol_handlers_.erase(it)]. *)
Definition erase (scheme : string) : Task unit :=
  m ← read_map;
  write_map (delete scheme m) ;;
  emit (UiMapErase scheme).

(** *** The calls into the factory, on the IO thread *)

Definition job_factory_IsHandledProtocol (scheme : string) : Task bool :=
  f ← read_factory;
  let answer := AtomURLRequestJobFactory.IsHandledProtocol scheme f in
  emit (IoQuery scheme answer) ;; mret answer.

Definition job_factory_HasProtocolHandler (scheme : string) : Task bool :=
  f ← read_factory;
  let answer := AtomURLRequestJobFactory.HasProtocolHandler scheme f in
  emit (IoQuery scheme answer) ;; mret answer.

Definition job_factory_GetProtocolHandler (scheme : string)
  : Task (option ProtocolHandler) :=
  f ← read_factory;
  mret (AtomURLRequestJobFactory.GetProtocolHandler scheme f).

(** [delete handler]: nothing happens for a null pointer. *)
Definition delete_handler (handler : option ProtocolHandler) : Task unit :=
  match handler with
  | None => mret tt
  | Some h => foldr (λ d rest, emit (IoDelete d) ;; rest) (mret tt) (destroyed h)
  end.

Definition job_factory_SetProtocolHandler (scheme : string)
    (handler : option ProtocolHandler) : Task unit :=
  f ← read_factory;
  let '(dropped, f') := AtomURLRequestJobFactory.SetProtocolHandler scheme handler f in
  write_factory f' ;;
  emit (IoSetProtocolHandler scheme handler) ;;
  delete_handler dropped.

Definition job_factory_ReplaceProtocol (scheme : string)
    (handler : ProtocolHandler) : Task (option ProtocolHandler) :=
  f ← read_factory;
  let '(previous, f') := AtomURLRequestJobFactory.ReplaceProtocol scheme handler f in
  write_factory f' ;;
  emit (IoReplaceProtocol scheme handler) ;;
  mret previous.

(** [handler->ReleaseDefaultProtocolHandler()] on the handler the factory
    holds for [scheme], which wraps [wrapped]: the [scoped_ptr] of that
    object gives up the wrapped handler and is null from then on. *)
Definition ReleaseDefaultProtocolHandler (scheme : string)
    (wrapped : ProtocolHandler) : Task ProtocolHandler :=
  f ← read_factory;
  write_factory
    {| AtomURLRequestJobFactory.protocol_handler_map_ :=
         <[scheme := CustomProtocolHandler None]>
           (AtomURLRequestJobFactory.protocol_handler_map_ f);
       AtomURLRequestJobFactory.net_handled_ :=
         AtomURLRequestJobFactory.net_handled_ f |} ;;
  emit (IoRelease scheme wrapped) ;;
  mret wrapped.

(** ** [atom::api::Protocol] *)

Module Protocol.

(** [Protocol::GetProtocolHandler]: [return protocol_handlers_[scheme];]. *)
Definition GetProtocolHandler (scheme : string) : Task JsProtocolHandler :=
  subscript scheme.

(** *** The tasks that run on the IO thread *)

Definition RegisterProtocolInIO (scheme : string) : Task unit :=
  job_factory_SetProtocolHandler scheme (Some (CustomProtocolHandler None)).

Definition UnregisterProtocolInIO (scheme : string) : Task unit :=
  job_factory_SetProtocolHandler scheme None.

(** [NOTREACHED()] stops the run, so the replacement below it is reached
    with a handler to wrap. *)
Definition InterceptProtocolInIO (scheme : string) : Task unit :=
  original_handler ← job_factory_GetProtocolHandler scheme;
  match original_handler with
  | None => die NOTREACHED
  | Some original =>
      job_factory_ReplaceProtocol scheme
        (CustomProtocolHandler (Some original)) ;;
      mret tt
  end.

(** The handler of the factory is cast to [CustomProtocolHandler*]
    unchecked and dereferenced: a null pointer and a handler of another
    class are undefined behaviour.  [NOTREACHED()] stops the run when
    nothing is wrapped; otherwise the wrapped handler is released, put
    back, and the handler that was in place is deleted. *)
Definition UninterceptProtocolInIO (scheme : string) : Task unit :=
  handler ← job_factory_GetProtocolHandler scheme;
  match handler with
  | None => die NullPointerDereference
  | Some (NetworkHandler _) => die BadStaticCast
  | Some (CustomProtocolHandler protocol_handler_) =>
      match original_handler protocol_handler_ with
      | None => die NOTREACHED
      | Some wrapped =>
          original_handler ← ReleaseDefaultProtocolHandler scheme wrapped;
          previous ← job_factory_ReplaceProtocol scheme original_handler;
          delete_handler previous
      end
  end.

(** *** The steps on the UI thread *)

Definition OnRegisterProtocol (scheme : string) (handler : JsProtocolHandler)
    (callback : JsCompletionCallback) (is_handled : bool) : Task unit :=
  contains ← ContainsKey scheme;
  if is_handled || contains then
    Run callback AlreadyHandled
  else
    assign scheme handler ;;
    PostTaskAndReply (RegisterProtocolInIO scheme) (Run callback v8.Null).

Definition OnInterceptProtocol (scheme : string) (handler : JsProtocolHandler)
    (callback : JsCompletionCallback) (is_handled : bool) : Task unit :=
  if negb is_handled then
    Run callback NotHandled
  else
    (contains ← ContainsKey scheme;
     if contains : bool then
       Run callback CannotInterceptCustom
     else
       assign scheme handler ;;
       PostTaskAndReply (InterceptProtocolInIO scheme) (Run callback v8.Null))
    : Task unit.

Definition IsHandledProtocol (scheme : string) (callback : bool → Task unit)
  : Task unit :=
  PostTaskAndReplyWithResult (job_factory_IsHandledProtocol scheme) callback.

Definition RegisterProtocol (scheme : string) (handler : JsProtocolHandler)
    (callback : JsCompletionCallback) : Task unit :=
  IsHandledProtocol scheme (OnRegisterProtocol scheme handler callback).

Definition UnregisterProtocol (scheme : string)
    (callback : JsCompletionCallback) : Task unit :=
  found ← ContainsKey scheme;
  if negb found then
    Run callback NotRegistered
  else
    erase scheme ;;
    PostTaskAndReply (UnregisterProtocolInIO scheme) (Run callback v8.Null).

Definition InterceptProtocol (scheme : string) (handler : JsProtocolHandler)
    (callback : JsCompletionCallback) : Task unit :=
  PostTaskAndReplyWithResult (job_factory_HasProtocolHandler scheme)
    (OnInterceptProtocol scheme handler callback).

Definition UninterceptProtocol (scheme : string)
    (callback : JsCompletionCallback) : Task unit :=
  found ← ContainsKey scheme;
  if negb found then
    Run callback NotRegistered
  else
    erase scheme ;;
    PostTaskAndReply (UninterceptProtocolInIO scheme) (Run callback v8.Null).

End Protocol.

(** ** Reading a decision object *)

Module mate.

(** [mate::V8ToString]. *)
Definition V8ToString (v : v8.Value) : string :=
  match v with v8.String s => s | _ => "" end.

(** Modelled from the spec: native_mate's [Dictionary] is not part of the
    sources.  "Extracting fields with defaults": a property that is
    missing reads as undefined, and a value of the wrong type leaves the
    default in place. *)
Fixpoint Get (key : string) (properties : list (string * v8.Value)) : v8.Value :=
  match properties with
  | [] => v8.Undefined
  | (name, value) :: rest => if String.eqb name key then value else Get key rest
  end.

Definition Get_string (properties : list (string * v8.Value)) (key : string)
    (out : string) : string :=
  match Get key properties with v8.String s => s | _ => out end.

Definition Get_int (properties : list (string * v8.Value)) (key : string)
    (out : Z) : Z :=
  match Get key properties with
  | v8.Number n => if v8.IsInt32 (v8.Number n) then n else out
  | _ => out
  end.

End mate.

(** ** The adapter job *)

(** The methods of [AdapterRequestJob] that [GetJobTypeInUI] binds and
    posts to the IO thread, with their bound arguments. *)
Inductive AdapterTask :=
| CreateStringJobAndStart (mime_type charset data : string)
| CreateBufferJobAndStart (mime_type encoding : string) (data : list Byte.byte)
| CreateFileJobAndStart (path : string)
| CreateErrorJobAndStart (error : Z)
| CreateHttpJobAndStart (url method referrer : string)
| CreateJobFromProtocolHandlerAndStart.

Module CustomProtocolRequestJob.

(** [callback.Run(request())] on the JavaScript handler; running a null
    [base::Callback] is undefined. *)
Definition Run_handler (callback : JsProtocolHandler) (request : URLRequest)
  : Task v8.Value :=
  match callback with
  | NullHandler => die NullCallbackRun
  | JsHandler run => mret (run request)
  end.

(** [BufferToRefCountedBytes]: [node::Buffer::Data] and [Length] are only
    defined on a node buffer. *)
Definition BufferToRefCountedBytes (buf : v8.Value) : Task (list Byte.byte) :=
  match buf with
  | v8.Buffer _ contents => mret contents
  | _ => die NotANodeBuffer
  end.

(** The tail of [GetJobTypeInUI], reached when no branch returned: the
    default handler if there is one, else the not-implemented error. *)
Definition no_job_type (default_protocol_handler : option ProtocolHandler)
  : AdapterTask :=
  match default_protocol_handler with
  | Some _ => CreateJobFromProtocolHandlerAndStart
  | None => CreateErrorJobAndStart ERR_NOT_IMPLEMENTED
  end.

(** [GetJobTypeInUI]: the handler of the scheme is looked up now, called,
    and the kind of its result picks the task posted to the IO thread. *)
Definition GetJobTypeInUI (default_protocol_handler : option ProtocolHandler)
    (request : URLRequest) : Task AdapterTask :=
  callback ← Protocol.GetProtocolHandler (scheme (url request));
  result ← Run_handler callback request;
  if v8.IsString result then
    mret (CreateStringJobAndStart "text/plain" "UTF-8" (mate.V8ToString result))
  else if v8.IsObject result then
    let dict := v8.Properties result in
    let name := v8.GetConstructorName result in
    if String.eqb name "RequestStringJob" then
      mret (CreateStringJobAndStart (mate.Get_string dict "mimeType" "")
                                    (mate.Get_string dict "charset" "")
                                    (mate.Get_string dict "data" ""))
    else if String.eqb name "RequestBufferJob" then
      data ← BufferToRefCountedBytes (mate.Get "data" dict);
      mret (CreateBufferJobAndStart (mate.Get_string dict "mimeType" "")
                                    (mate.Get_string dict "encoding" "")
                                    data)
    else if String.eqb name "RequestFileJob" then
      mret (CreateFileJobAndStart (mate.Get_string dict "path" ""))
    else if String.eqb name "RequestErrorJob" then
      mret (CreateErrorJobAndStart (mate.Get_int dict "error" ERR_NOT_IMPLEMENTED))
    else if String.eqb name "RequestHttpJob" then
      mret (CreateHttpJobAndStart (mate.Get_string dict "url" "")
                                  (mate.Get_string dict "method" "")
                                  (mate.Get_string dict "referrer" ""))
    else mret (no_job_type default_protocol_handler)
  else mret (no_job_type default_protocol_handler).

(** Modelled from the spec: atom/browser/net/adapter_request_job is not
    part of the sources.  Section 4.3, Resolved: each task constructs the
    job of its kind from its fields; the fallback delegates job creation
    to the wrapped prior handler, and without one behaves as unhandled. *)
Definition start (default_protocol_handler : option ProtocolHandler)
    (request : URLRequest) (task : AdapterTask) : URLRequestJob :=
  match task with
  | CreateStringJobAndStart mime_type charset data =>
      URLRequestStringJob mime_type charset data
  | CreateBufferJobAndStart mime_type encoding data =>
      URLRequestBufferJob mime_type encoding data
  | CreateFileJobAndStart path => URLRequestFileJob path
  | CreateErrorJobAndStart error => URLRequestErrorJob error
  | CreateHttpJobAndStart url method referrer =>
      URLRequestHttpJob url method referrer
  | CreateJobFromProtocolHandlerAndStart =>
      match default_protocol_handler with
      | Some handler => MaybeCreateJob handler request
      | None => URLRequestErrorJob ERR_NOT_IMPLEMENTED
      end
  end.

(** The job a request ends with: the decision on the UI thread, then the
    posted task on the IO thread. *)
Definition resolve (default_protocol_handler : option ProtocolHandler)
    (request : URLRequest) : Task URLRequestJob :=
  task ← GetJobTypeInUI default_protocol_handler request;
  mret (start default_protocol_handler request task).

End CustomProtocolRequestJob.

(** ** Reading a run *)

(** The arguments [callback] was run with, in order. *)
Fixpoint replies (callback : JsCompletionCallback) (events : list Event)
  : list v8.Value :=
  match events with
  | [] => []
  | UiRun c arg :: rest =>
      if decide (c = callback) then arg :: replies callback rest
      else replies callback rest
  | _ :: rest => replies callback rest
  end.

(** [task] runs to its end from [w], doing [events] and leaving [w']. *)
Definition runs (task : Task unit) (w : World) (events : list Event)
    (w' : World) : Prop :=
  task w = Returns tt w' ∧ trace w' = trace w ++ events.

(** What [delete handler] leaves in the trace. *)
Definition deletions (handler : option ProtocolHandler) : list Event :=
  match handler with
  | None => []
  | Some h => IoDelete <$> destroyed h
  end.

(** The mode of a registration.  The source stores none: it shows in the
    handler the factory holds for the scheme.  [RegisterProtocolInIO]
    installs a handler that wraps nothing, [InterceptProtocolInIO] one
    that wraps the handler it found. *)
Inductive Mode := Registered | Intercepted.

Definition registration_mode (scheme : string) (w : World) : option Mode :=
  match protocol_handlers_ w !! scheme,
        AtomURLRequestJobFactory.protocol_handler_map_ (job_factory_ w) !! scheme with
  | Some _, Some (CustomProtocolHandler None) => Some Registered
  | Some _, Some (CustomProtocolHandler (Some _)) => Some Intercepted
  | _, _ => None
  end.

(** The constructor names [GetJobTypeInUI] compares with, and the test
    that one of its branches takes the value. *)
Definition job_constructor_names : list string :=
  ["RequestStringJob"; "RequestBufferJob"; "RequestFileJob";
   "RequestErrorJob"; "RequestHttpJob"].

Definition matches_job_kind (v : v8.Value) : bool :=
  v8.IsString v ||
  (v8.IsObject v && bool_decide (v8.GetConstructorName v ∈ job_constructor_names)).

(** The four mutation operations, with the callback of the caller. *)
Inductive Mutation :=
| Register (scheme : string) (handler : JsProtocolHandler)
| Unregister (scheme : string)
| Intercept (scheme : string) (handler : JsProtocolHandler)
| Unintercept (scheme : string).

Definition invoke (op : Mutation) (callback : JsCompletionCallback) : Task unit :=
  match op with
  | Register scheme handler => Protocol.RegisterProtocol scheme handler callback
  | Unregister scheme => Protocol.UnregisterProtocol scheme callback
  | Intercept scheme handler => Protocol.InterceptProtocol scheme handler callback
  | Unintercept scheme => Protocol.UninterceptProtocol scheme callback
  end.

(** The step of an operation that changes the factory. *)
Definition changes_factory (e : Event) : bool :=
  match e with
  | IoSetProtocolHandler _ _ | IoReplaceProtocol _ _ => true
  | _ => false
  end.

(** *** Worlds and handlers to run the operations on *)

(** A factory that serves "http" with a handler of the network stack, and
    a registry with no entry. *)
Definition http_world : World :=
  {| protocol_handlers_ := ∅;
     job_factory_ :=
       {| AtomURLRequestJobFactory.protocol_handler_map_ :=
            {[ "http" := NetworkHandler 1 ]};
          AtomURLRequestJobFactory.net_handled_ := ∅ |};
     trace := [] |}.

Definition say_hello : JsProtocolHandler :=
  JsHandler (λ _, v8.String "hello").

Definition say_nothing : JsProtocolHandler :=
  JsHandler (λ _, v8.Undefined).

Definition get_app : URLRequest :=
  {| method := "GET";
     url := {| scheme := "app"; spec := "app://index.html" |};
     referrer := "" |}.

Definition get_http : URLRequest :=
  {| method := "GET";
     url := {| scheme := "http"; spec := "http://example.org/" |};
     referrer := "" |}.

(** [http_world] after [registerProtocol("app", handler)] went through,
    with the trace that run left. *)
Definition app_world (handler : JsProtocolHandler) (events : list Event)
  : World :=
  {| protocol_handlers_ := {[ "app" := handler ]};
     job_factory_ :=
       {| AtomURLRequestJobFactory.protocol_handler_map_ :=
            <[ "app" := CustomProtocolHandler None ]>
              {[ "http" := NetworkHandler 1 ]};
          AtomURLRequestJobFactory.net_handled_ := ∅ |};
     trace := events |}.

(** [http_world] after [interceptProtocol("http", handler)] went through,
    with the trace that run left. *)
Definition intercepted_world (handler : JsProtocolHandler)
    (events : list Event) : World :=
  {| protocol_handlers_ := {[ "http" := handler ]};
     job_factory_ :=
       {| AtomURLRequestJobFactory.protocol_handler_map_ :=
            {[ "http" := CustomProtocolHandler (Some (NetworkHandler 1)) ]};
          AtomURLRequestJobFactory.net_handled_ := ∅ |};
     trace := events |}.

(** *** Outcomes, schemes and the agreement of map and factory *)

(** The scheme an operation is about. *)
Definition scheme_of (op : Mutation) : string :=
  match op with
  | Register scheme _ | Unregister scheme
  | Intercept scheme _ | Unintercept scheme => scheme
  end.

(** The world a run leaves, whether it ran to its end or stopped. *)
Definition world_after {A} (o : Outcome A) : World :=
  match o with
  | Returns _ w | Dies _ w => w
  end.

(** What the registry map and the factory may hold for one scheme after
    the operations of this file: an entry of the map goes with a custom
    handler in the factory, which wraps nothing or a handler of the
    network stack; without an entry the factory holds nothing or a
    handler of the network stack. *)
Definition agree (stored : option JsProtocolHandler)
    (serving : option ProtocolHandler) : bool :=
  match stored, serving with
  | Some _, Some (CustomProtocolHandler None) => true
  | Some _, Some (CustomProtocolHandler (Some (NetworkHandler _))) => true
  | None, None => true
  | None, Some (NetworkHandler _) => true
  | _, _ => false
  end.

(** The schemes on which map and factory do not agree. *)
Definition disagreements (w : World) : gmap string unit :=
  merge (λ stored serving, if agree stored serving then None else Some tt)
    (protocol_handlers_ w)
    (AtomURLRequestJobFactory.protocol_handler_map_ (job_factory_ w)).

Definition consistent (w : World) : Prop := disagreements w = ∅.

(** ** Equations of the runs *)

Ltac run_task :=
  repeat (unfold runs, mbind, mret, Task_bind, Task_ret, die, emit, read_map,
     write_map, read_factory, write_factory, PostTaskAndReply,
     PostTaskAndReplyWithResult, Run, ContainsKey, subscript, assign, erase,
     job_factory_IsHandledProtocol, job_factory_HasProtocolHandler,
     job_factory_GetProtocolHandler, job_factory_SetProtocolHandler,
     job_factory_ReplaceProtocol, ReleaseDefaultProtocolHandler; simpl).

(** [Hrun] is the equation of a run that goes to its end: give its events
    and its last world, and read the replies off the events. *)
Ltac settle_run Hrun :=
  eexists _, _; split; [split; [exact Hrun | reflexivity]|];
  simpl; rewrite ?decide_True by done.

Lemma replies_app callback (l1 l2 : list Event) :
  replies callback (l1 ++ l2) = replies callback l1 ++ replies callback l2.
Proof.
  induction l1 as [|e l1 IH]; simpl; [done|].
  destruct e; simpl; try done.
  case_decide; simpl; by rewrite IH.
Qed.

Lemma replies_deletions callback handler :
  replies callback (deletions handler) = [].
Proof.
  destruct handler as [h|]; simpl; [|done].
  induction (destroyed h) as [|d l IH]; simpl; done.
Qed.

Lemma delete_handler_run handler w :
  delete_handler handler w =
  Returns tt {| protocol_handlers_ := protocol_handlers_ w;
                job_factory_ := job_factory_ w;
                trace := trace w ++ deletions handler |}.
Proof.
  destruct handler as [h|]; simpl.
  - revert w. induction (destroyed h) as [|d l IH]; intros w; simpl.
    + rewrite app_nil_r. by destruct w.
    + run_task. rewrite IH. simpl. by rewrite <- app_assoc.
  - unfold mret, Task_ret. rewrite app_nil_r. by destruct w.
Qed.

Lemma RegisterProtocol_run scheme handler callback w :
  Protocol.RegisterProtocol scheme handler callback w =
  let is_handled :=
    AtomURLRequestJobFactory.IsHandledProtocol scheme (job_factory_ w) in
  if is_handled || bool_decide (is_Some (protocol_handlers_ w !! scheme)) then
    Returns tt
      {| protocol_handlers_ := protocol_handlers_ w;
         job_factory_ := job_factory_ w;
         trace := trace w ++ [IoQuery scheme is_handled;
                              UiRun callback AlreadyHandled] |}
  else
    Returns tt
      {| protocol_handlers_ := <[scheme := handler]> (protocol_handlers_ w);
         job_factory_ :=
           (AtomURLRequestJobFactory.SetProtocolHandler scheme
              (Some (CustomProtocolHandler None)) (job_factory_ w)).2;
         trace := trace w ++
           [IoQuery scheme is_handled;
            UiMapAssign scheme handler;
            IoSetProtocolHandler scheme (Some (CustomProtocolHandler None));
            UiRun callback v8.Null] |}.
Proof.
  unfold Protocol.RegisterProtocol, Protocol.IsHandledProtocol,
    Protocol.OnRegisterProtocol, Protocol.RegisterProtocolInIO.
  run_task.
  destruct (_ || _); simpl; rewrite <- ?app_assoc; reflexivity.
Qed.

Lemma UnregisterProtocol_run scheme callback w :
  Protocol.UnregisterProtocol scheme callback w =
  if bool_decide (is_Some (protocol_handlers_ w !! scheme)) then
    Returns tt
      {| protocol_handlers_ := delete scheme (protocol_handlers_ w);
         job_factory_ :=
           (AtomURLRequestJobFactory.SetProtocolHandler scheme None
              (job_factory_ w)).2;
         trace := trace w ++
           UiMapErase scheme :: IoSetProtocolHandler scheme None ::
           deletions (AtomURLRequestJobFactory.GetProtocolHandler scheme
                        (job_factory_ w)) ++
           [UiRun callback v8.Null] |}
  else
    Returns tt
      {| protocol_handlers_ := protocol_handlers_ w;
         job_factory_ := job_factory_ w;
         trace := trace w ++ [UiRun callback NotRegistered] |}.
Proof.
  unfold Protocol.UnregisterProtocol, Protocol.UnregisterProtocolInIO.
  run_task.
  destruct (bool_decide _); simpl; [|reflexivity].
  rewrite delete_handler_run. simpl.
  rewrite <- !app_assoc. reflexivity.
Qed.

(** ** Registration *)

(** C1.  [RegisterProtocol] always runs to its end and runs the callback;
    it runs it with the already-registered error exactly when the scheme
    has an entry in the registry map or the factory reports the scheme as
    handled.  On that error the map is the one before.  And once a
    registration went through, a second one for the same scheme gets the
    error, and the handler stored for the scheme is still the first. *)
Theorem register_already_handled (scheme : string)
    (handler : JsProtocolHandler) (callback : JsCompletionCallback)
    (w : World) :
  ∃ events w',
    runs (Protocol.RegisterProtocol scheme handler callback) w events w' ∧
    (replies callback events = [AlreadyHandled] ↔
       is_Some (protocol_handlers_ w !! scheme) ∨
       AtomURLRequestJobFactory.IsHandledProtocol scheme (job_factory_ w) = true) ∧
    (replies callback events = [AlreadyHandled] →
       protocol_handlers_ w' = protocol_handlers_ w) ∧
    (replies callback events ≠ [AlreadyHandled] →
       replies callback events = [v8.Null] ∧
       protocol_handlers_ w' !! scheme = Some handler ∧
       ∀ handler2 callback2, ∃ events2 w2,
         runs (Protocol.RegisterProtocol scheme handler2 callback2) w' events2 w2 ∧
         replies callback2 events2 = [AlreadyHandled] ∧
         protocol_handlers_ w2 !! scheme = Some handler).
Proof.
  pose proof (RegisterProtocol_run scheme handler callback w) as Hrun.
  simpl in Hrun.
  destruct (AtomURLRequestJobFactory.IsHandledProtocol scheme (job_factory_ w))
    eqn:Hhandled; simpl in Hrun.
  { settle_run Hrun.
    split; [split; auto|]. split; [done|]. intros Hne; by destruct Hne. }
  case_bool_decide as Hkey.
  { settle_run Hrun.
    split; [split; auto|]. split; [done|]. intros Hne; by destruct Hne. }
  settle_run Hrun.
  split; [|split].
  - split; [discriminate|]. intros [?|?]; done.
  - discriminate.
  - intros _. split; [done|]. simpl. split; [by rewrite lookup_insert_eq|].
    intros handler2 callback2.
    match goal with |- context [runs _ ?w1 _ _] => set (w1' := w1) end.
    pose proof (RegisterProtocol_run scheme handler2 callback2 w1') as Hrun2.
    simpl in Hrun2.
    rewrite (bool_decide_eq_true_2 (is_Some (<[scheme:=handler]> (protocol_handlers_ w) !! scheme))) in Hrun2
      by (rewrite lookup_insert_eq; eauto).
    rewrite orb_true_r in Hrun2.
    settle_run Hrun2. split; [done|]. by rewrite lookup_insert_eq.
Qed.

Lemma InterceptProtocol_run scheme handler callback w :
  Protocol.InterceptProtocol scheme handler callback w =
  match AtomURLRequestJobFactory.GetProtocolHandler scheme (job_factory_ w) with
  | None =>
      Returns tt
        {| protocol_handlers_ := protocol_handlers_ w;
           job_factory_ := job_factory_ w;
           trace := trace w ++ [IoQuery scheme false;
                                UiRun callback NotHandled] |}
  | Some original =>
      if bool_decide (is_Some (protocol_handlers_ w !! scheme)) then
        Returns tt
          {| protocol_handlers_ := protocol_handlers_ w;
             job_factory_ := job_factory_ w;
             trace := trace w ++ [IoQuery scheme true;
                                  UiRun callback CannotInterceptCustom] |}
      else
        Returns tt
          {| protocol_handlers_ := <[scheme := handler]> (protocol_handlers_ w);
             job_factory_ :=
               (AtomURLRequestJobFactory.ReplaceProtocol scheme
                  (CustomProtocolHandler (Some original)) (job_factory_ w)).2;
             trace := trace w ++
               [IoQuery scheme true;
                UiMapAssign scheme handler;
                IoReplaceProtocol scheme (CustomProtocolHandler (Some original));
                UiRun callback v8.Null] |}
  end.
Proof.
  unfold Protocol.InterceptProtocol, Protocol.OnInterceptProtocol,
    Protocol.InterceptProtocolInIO.
  run_task.
  unfold AtomURLRequestJobFactory.HasProtocolHandler,
    AtomURLRequestJobFactory.GetProtocolHandler.
  destruct (AtomURLRequestJobFactory.protocol_handler_map_ (job_factory_ w) !! scheme)
    as [original|] eqn:Hget; simpl.
  - destruct (bool_decide _); simpl; [rewrite <- !app_assoc; reflexivity|].
    rewrite Hget. simpl. rewrite <- !app_assoc. reflexivity.
  - rewrite <- !app_assoc. reflexivity.
Qed.

Lemma UninterceptProtocol_run scheme callback w :
  Protocol.UninterceptProtocol scheme callback w =
  if bool_decide (is_Some (protocol_handlers_ w !! scheme)) then
    let erased :=
      {| protocol_handlers_ := delete scheme (protocol_handlers_ w);
         job_factory_ := job_factory_ w;
         trace := trace w ++ [UiMapErase scheme] |} in
    match AtomURLRequestJobFactory.GetProtocolHandler scheme (job_factory_ w) with
    | None => Dies NullPointerDereference erased
    | Some (NetworkHandler _) => Dies BadStaticCast erased
    | Some (CustomProtocolHandler None) => Dies NOTREACHED erased
    | Some (CustomProtocolHandler (Some original)) =>
        Returns tt
          {| protocol_handlers_ := delete scheme (protocol_handlers_ w);
             job_factory_ :=
               (AtomURLRequestJobFactory.ReplaceProtocol scheme original
                  (job_factory_ w)).2;
             trace := trace w ++
               [UiMapErase scheme;
                IoRelease scheme original;
                IoReplaceProtocol scheme original;
                IoDelete (CustomProtocolHandler None);
                UiRun callback v8.Null] |}
    end
  else
    Returns tt
      {| protocol_handlers_ := protocol_handlers_ w;
         job_factory_ := job_factory_ w;
         trace := trace w ++ [UiRun callback NotRegistered] |}.
Proof.
  unfold Protocol.UninterceptProtocol, Protocol.UninterceptProtocolInIO.
  run_task.
  destruct (bool_decide _); simpl; [|reflexivity].
  unfold AtomURLRequestJobFactory.GetProtocolHandler.
  destruct (AtomURLRequestJobFactory.protocol_handler_map_ (job_factory_ w) !! scheme)
    as [[id|[original|]]|] eqn:Hget; simpl; try reflexivity.
  rewrite lookup_insert_eq. simpl.
  unfold AtomURLRequestJobFactory.ReplaceProtocol. simpl.
  rewrite insert_insert_eq, <- !app_assoc. reflexivity.
Qed.

(** C5.  [UnregisterProtocol] always runs to its end.  The callback gets
    the not-registered error exactly when the scheme has no entry in the
    registry map, and then the map is the one before.  With an entry, the
    entry is erased first, then the factory drops its handler for the
    scheme (and destroys it), and the callback gets the success marker
    last. *)
Theorem unregister_not_registered (scheme : string)
    (callback : JsCompletionCallback) (w : World) :
  ∃ events w',
    runs (Protocol.UnregisterProtocol scheme callback) w events w' ∧
    (replies callback events = [NotRegistered] ↔
       protocol_handlers_ w !! scheme = None) ∧
    (replies callback events = [NotRegistered] →
       protocol_handlers_ w' = protocol_handlers_ w) ∧
    (replies callback events ≠ [NotRegistered] →
       replies callback events = [v8.Null] ∧
       protocol_handlers_ w' = delete scheme (protocol_handlers_ w) ∧
       AtomURLRequestJobFactory.GetProtocolHandler scheme (job_factory_ w') = None ∧
       events =
         UiMapErase scheme :: IoSetProtocolHandler scheme None ::
         deletions (AtomURLRequestJobFactory.GetProtocolHandler scheme
                      (job_factory_ w)) ++
         [UiRun callback v8.Null]).
Proof.
  pose proof (UnregisterProtocol_run scheme callback w) as Hrun.
  case_bool_decide as Hkey.
  - eexists _, _. split; [split; [exact Hrun | reflexivity]|].
    simpl. rewrite replies_app, replies_deletions. simpl.
    rewrite decide_True by done.
    destruct Hkey as [stored Hkey].
    split; [split; [discriminate | congruence]|].
    split; [discriminate|].
    intros _. repeat split; try done.
    unfold AtomURLRequestJobFactory.GetProtocolHandler. simpl.
    apply lookup_delete_eq.
  - settle_run Hrun.
    split; [split; [|done]|].
    + intros _. by apply eq_None_not_Some.
    + split; [done|]. intros Hne; by destruct Hne.
Qed.

(** ** Interception *)

(** C2, as stated, fails: the error for custom protocols is not bound to
    a registration in Registered mode.  After [interceptProtocol("http")]
    went through, the entry of "http" is in Intercepted mode, and a second
    [interceptProtocol("http")] gets that very error. *)
Lemma intercept_intercepted_scheme_refused :
  (∃ events,
     runs (Protocol.InterceptProtocol "http" say_hello 7) http_world
       events (intercepted_world say_hello events) ∧
     replies 7 events = [v8.Null]) ∧
  ¬ (∀ events w',
       runs (Protocol.InterceptProtocol "http" say_nothing 8)
         (intercepted_world say_hello []) events w' →
       (replies 8 events = [CannotInterceptCustom] ↔
        registration_mode "http" (intercepted_world say_hello []) =
          Some Registered)).
Proof.
  split.
  - eexists. split; [split; reflexivity|]. reflexivity.
  - intros Hclaim.
    pose proof (Hclaim _ _ (conj eq_refl eq_refl)) as [Hcustom _].
    specialize (Hcustom eq_refl). vm_compute in Hcustom. discriminate.
Qed.

(** C2, amended.  [InterceptProtocol] always runs to its end.  The
    callback gets the does-not-exist error exactly when the factory
    reports no handler for the scheme.  It gets the error for custom
    protocols exactly when the factory reports a handler and the scheme
    has an entry in the registry map, whatever put it there; a
    registration in Registered mode is one such case.  On either error the
    registry map is the one before. *)
Theorem intercept_refused (scheme : string) (handler : JsProtocolHandler)
    (callback : JsCompletionCallback) (w : World) :
  ∃ events w',
    runs (Protocol.InterceptProtocol scheme handler callback) w events w' ∧
    (replies callback events = [NotHandled] ↔
       AtomURLRequestJobFactory.HasProtocolHandler scheme (job_factory_ w) = false) ∧
    (replies callback events = [CannotInterceptCustom] ↔
       AtomURLRequestJobFactory.HasProtocolHandler scheme (job_factory_ w) = true ∧
       is_Some (protocol_handlers_ w !! scheme)) ∧
    (registration_mode scheme w = Some Registered →
       replies callback events = [CannotInterceptCustom]) ∧
    (replies callback events = [NotHandled] ∨
     replies callback events = [CannotInterceptCustom] →
       protocol_handlers_ w' = protocol_handlers_ w).
Proof.
  pose proof (InterceptProtocol_run scheme handler callback w) as Hrun.
  unfold registration_mode, AtomURLRequestJobFactory.HasProtocolHandler.
  unfold AtomURLRequestJobFactory.GetProtocolHandler in Hrun.
  destruct (AtomURLRequestJobFactory.protocol_handler_map_ (job_factory_ w) !! scheme)
    as [original|] eqn:Hget.
  - rewrite bool_decide_eq_true_2 by eauto.
    case_bool_decide as Hkey.
    + settle_run Hrun.
      split; [split; discriminate|].
      split; [split; auto|].
      split; [|done]. done.
    + settle_run Hrun.
      split; [split; discriminate|].
      split; [split; [discriminate | intros [_ ?]; done]|].
      split; [|intros [?|?]; discriminate].
      destruct (protocol_handlers_ w !! scheme) eqn:Hmap; [|done].
      destruct Hkey; eauto.
  - rewrite bool_decide_eq_false_2 by (intros [? ?]; done).
    settle_run Hrun.
    split; [done|].
    split; [split; [discriminate | intros [? _]; done]|].
    split; [|done].
    destruct (protocol_handlers_ w !! scheme); done.
Qed.

(** C3.  Let the factory hold the handler [H] for the scheme.
    [InterceptProtocol] runs to its end, and it goes through exactly when
    the scheme has no entry in the registry map.  When it went through,
    [UninterceptProtocol] runs to its end and goes through as well: the
    entry is erased, the wrapping handler releases [H], [H] is put back
    into the factory, and the wrapping handler, which owns nothing any
    more, is the one object deleted.  The factory and the registry map are
    then the ones before the interception, so the factory creates the same
    job for every request. *)
Theorem intercept_then_unintercept_restores (scheme : string)
    (H : ProtocolHandler) (handler : JsProtocolHandler)
    (callback callback' : JsCompletionCallback) (w : World) :
  AtomURLRequestJobFactory.GetProtocolHandler scheme (job_factory_ w) = Some H →
  ∃ events w',
    runs (Protocol.InterceptProtocol scheme handler callback) w events w' ∧
    (replies callback events = [v8.Null] ↔
       protocol_handlers_ w !! scheme = None) ∧
    (replies callback events = [v8.Null] →
       AtomURLRequestJobFactory.GetProtocolHandler scheme (job_factory_ w') =
         Some (CustomProtocolHandler (Some H)) ∧
       ∃ w'',
         runs (Protocol.UninterceptProtocol scheme callback') w'
           [UiMapErase scheme;
            IoRelease scheme H;
            IoReplaceProtocol scheme H;
            IoDelete (CustomProtocolHandler None);
            UiRun callback' v8.Null] w'' ∧
         AtomURLRequestJobFactory.GetProtocolHandler scheme (job_factory_ w'') =
           Some H ∧
         job_factory_ w'' = job_factory_ w ∧
         protocol_handlers_ w'' !! scheme = None ∧
         protocol_handlers_ w'' = protocol_handlers_ w ∧
         ∀ request,
           AtomURLRequestJobFactory.MaybeCreateJobWithProtocolHandler request
             (job_factory_ w'') =
           AtomURLRequestJobFactory.MaybeCreateJobWithProtocolHandler request
             (job_factory_ w)).
Proof.
  intros Hget.
  pose proof (InterceptProtocol_run scheme handler callback w) as Hrun.
  rewrite Hget in Hrun.
  case_bool_decide as Hkey.
  - settle_run Hrun.
    destruct Hkey as [stored Hkey].
    split; [split; [discriminate | congruence]|]. discriminate.
  - settle_run Hrun.
    apply eq_None_not_Some in Hkey.
    split; [done|]. intros _.
    unfold AtomURLRequestJobFactory.GetProtocolHandler in *. simpl.
    rewrite lookup_insert_eq. split; [done|].
    match goal with |- context [runs _ ?w1 _ _] => set (w1' := w1) end.
    pose proof (UninterceptProtocol_run scheme callback' w1') as Hrun'.
    unfold AtomURLRequestJobFactory.GetProtocolHandler in Hrun'.
    simpl in Hrun'.
    rewrite !lookup_insert_eq in Hrun'.
    rewrite bool_decide_eq_true_2 in Hrun' by eauto.
    rewrite insert_insert_eq, delete_insert_id in Hrun' by done.
    rewrite (insert_id _ _ _ Hget) in Hrun'.
    eexists. split; [split; [exact Hrun' | simpl; by rewrite <- app_assoc]|].
    simpl. split; [done|]. split; [by destruct (job_factory_ w)|].
    split; [done|]. split; [done|]. intros request. by destruct (job_factory_ w).
Qed.

(** The same on [http_world]: "http" is intercepted and restored. *)
Lemma intercept_then_unintercept_restores_witness :
  AtomURLRequestJobFactory.GetProtocolHandler "http" (job_factory_ http_world) =
    Some (NetworkHandler 1) ∧
  ∃ events w' events' w'',
    runs (Protocol.InterceptProtocol "http" say_hello 7) http_world events w' ∧
    replies 7 events = [v8.Null] ∧
    runs (Protocol.UninterceptProtocol "http" 8) w' events' w'' ∧
    replies 8 events' = [v8.Null] ∧
    job_factory_ w'' = job_factory_ http_world ∧
    protocol_handlers_ w'' = protocol_handlers_ http_world.
Proof.
  split; [reflexivity|].
  destruct (intercept_then_unintercept_restores "http" (NetworkHandler 1)
              say_hello 7 8 http_world eq_refl)
    as (events & w' & Hrun & Hiff & Hrest).
  assert (replies 7 events = [v8.Null]) as Hok by (apply Hiff; reflexivity).
  destruct (Hrest Hok) as (_ & w'' & Hrun' & _ & Hfactory & _ & Hmap & _).
  exists events, w'. eexists _, w''.
  split; [exact Hrun|]. split; [exact Hok|]. split; [exact Hrun'|].
  split; [reflexivity|]. split; assumption.
Defined.

(** C9.  A scheme that [RegisterProtocol] accepts ends in Registered
    mode: the factory holds for it a handler that wraps nothing.
    [UninterceptProtocol] for that scheme finds the entry, so it does not
    answer with the not-registered error; it erases the entry, and its
    task on the IO thread stops at [NOTREACHED()].  The callback is not
    run. *)
Theorem unintercept_registered_reaches_assertion (scheme : string)
    (handler : JsProtocolHandler) (callback callback' : JsCompletionCallback)
    (w : World) :
  protocol_handlers_ w !! scheme = None →
  AtomURLRequestJobFactory.IsHandledProtocol scheme (job_factory_ w) = false →
  ∃ events w',
    runs (Protocol.RegisterProtocol scheme handler callback) w events w' ∧
    replies callback events = [v8.Null] ∧
    registration_mode scheme w' = Some Registered ∧
    ∃ w'',
      Protocol.UninterceptProtocol scheme callback' w' = Dies NOTREACHED w'' ∧
      trace w'' = trace w' ++ [UiMapErase scheme] ∧
      protocol_handlers_ w'' !! scheme = None ∧
      protocol_handlers_ w'' = protocol_handlers_ w ∧
      job_factory_ w'' = job_factory_ w'.
Proof.
  intros Hmap Hhandled.
  pose proof (RegisterProtocol_run scheme handler callback w) as Hrun.
  simpl in Hrun. rewrite Hhandled in Hrun.
  rewrite bool_decide_eq_false_2 in Hrun by (rewrite Hmap; intros [? ?]; done).
  simpl in Hrun.
  settle_run Hrun. split; [done|].
  unfold registration_mode. simpl. rewrite !lookup_insert_eq. split; [done|].
  match goal with |- context [Protocol.UninterceptProtocol _ _ ?w1] =>
    set (w1' := w1) end.
  pose proof (UninterceptProtocol_run scheme callback' w1') as Hrun'.
  unfold AtomURLRequestJobFactory.GetProtocolHandler in Hrun'.
  simpl in Hrun'. rewrite !lookup_insert_eq in Hrun'.
  rewrite bool_decide_eq_true_2 in Hrun' by eauto.
  eexists. split; [exact Hrun'|]. simpl.
  rewrite delete_insert_id by done.
  by rewrite Hmap.
Qed.

(** The same on [http_world], for the scheme "app". *)
Lemma unintercept_registered_reaches_assertion_witness :
  protocol_handlers_ http_world !! "app" = None ∧
  AtomURLRequestJobFactory.IsHandledProtocol "app" (job_factory_ http_world) = false ∧
  ∃ events w' w'',
    runs (Protocol.RegisterProtocol "app" say_hello 7) http_world events w' ∧
    registration_mode "app" w' = Some Registered ∧
    Protocol.UninterceptProtocol "app" 8 w' = Dies NOTREACHED w''.
Proof.
  split; [reflexivity|]. split; [reflexivity|].
  destruct (unintercept_registered_reaches_assertion "app" say_hello 7 8
              http_world eq_refl eq_refl)
    as (events & w' & Hrun & _ & Hmode & w'' & Hdies & _).
  exists events, w', w''. auto.
Defined.

(** ** Looking a handler up *)

Lemma GetProtocolHandler_run scheme w :
  Protocol.GetProtocolHandler scheme w =
  match protocol_handlers_ w !! scheme with
  | Some handler => Returns handler w
  | None =>
      Returns NullHandler
        {| protocol_handlers_ := <[scheme := NullHandler]> (protocol_handlers_ w);
           job_factory_ := job_factory_ w;
           trace := trace w ++ [UiMapAssign scheme NullHandler] |}
  end.
Proof.
  unfold Protocol.GetProtocolHandler. run_task.
  destruct (protocol_handlers_ w !! scheme); reflexivity.
Qed.

(** C8.  [GetProtocolHandler] on a scheme without an entry returns the
    null handler and leaves an entry with the null handler behind in the
    registry map.  From then on [RegisterProtocol] for that scheme gets the
    already-registered error, whatever the factory reports, and the null
    handler stays. *)
Theorem lookup_inserts_null_entry (scheme : string) (w : World) :
  protocol_handlers_ w !! scheme = None →
  ∃ w',
    Protocol.GetProtocolHandler scheme w = Returns NullHandler w' ∧
    protocol_handlers_ w' = <[scheme := NullHandler]> (protocol_handlers_ w) ∧
    protocol_handlers_ w' ≠ protocol_handlers_ w ∧
    job_factory_ w' = job_factory_ w ∧
    ∀ handler callback, ∃ events w'',
      runs (Protocol.RegisterProtocol scheme handler callback) w' events w'' ∧
      replies callback events = [AlreadyHandled] ∧
      protocol_handlers_ w'' !! scheme = Some NullHandler.
Proof.
  intros Hmap.
  rewrite GetProtocolHandler_run, Hmap.
  eexists. split; [reflexivity|]. simpl.
  split; [done|]. split.
  { intros Heq. rewrite <- Heq, lookup_insert_eq in Hmap. done. }
  split; [done|].
  intros handler callback.
  match goal with |- context [runs _ ?w1 _ _] => set (w1' := w1) end.
  pose proof (RegisterProtocol_run scheme handler callback w1') as Hrun.
  simpl in Hrun.
  rewrite (bool_decide_eq_true_2
             (is_Some (<[scheme:=NullHandler]> (protocol_handlers_ w) !! scheme)))
    in Hrun by (rewrite lookup_insert_eq; eauto).
  rewrite orb_true_r in Hrun.
  settle_run Hrun. split; [done|].
  by rewrite lookup_insert_eq.
Qed.

(** The same on [http_world]: looking "app" up blocks its registration. *)
Lemma lookup_inserts_null_entry_witness :
  protocol_handlers_ http_world !! "app" = None ∧
  ∃ w' events w'',
    Protocol.GetProtocolHandler "app" http_world = Returns NullHandler w' ∧
    AtomURLRequestJobFactory.IsHandledProtocol "app" (job_factory_ w') = false ∧
    runs (Protocol.RegisterProtocol "app" say_hello 7) w' events w'' ∧
    replies 7 events = [AlreadyHandled].
Proof.
  split; [reflexivity|].
  destruct (lookup_inserts_null_entry "app" http_world eq_refl)
    as (w' & Hget & _ & _ & Hfactory & Hregister).
  destruct (Hregister say_hello 7) as (events & w'' & Hrun & Hreply & _).
  exists w', events, w''.
  split; [exact Hget|]. split; [by rewrite Hfactory|]. auto.
Defined.

(** ** The decision of a handler *)

Lemma GetJobTypeInUI_handler default_protocol_handler request run w :
  protocol_handlers_ w !! scheme (url request) = Some (JsHandler run) →
  CustomProtocolRequestJob.GetJobTypeInUI default_protocol_handler request w =
  (result ← CustomProtocolRequestJob.Run_handler (JsHandler run) request;
   if v8.IsString result then
     mret (CreateStringJobAndStart "text/plain" "UTF-8" (mate.V8ToString result))
   else if v8.IsObject result then
     let dict := v8.Properties result in
     let name := v8.GetConstructorName result in
     if String.eqb name "RequestStringJob" then
       mret (CreateStringJobAndStart (mate.Get_string dict "mimeType" "")
                                     (mate.Get_string dict "charset" "")
                                     (mate.Get_string dict "data" ""))
     else if String.eqb name "RequestBufferJob" then
       data ← CustomProtocolRequestJob.BufferToRefCountedBytes (mate.Get "data" dict);
       mret (CreateBufferJobAndStart (mate.Get_string dict "mimeType" "")
                                     (mate.Get_string dict "encoding" "")
                                     data)
     else if String.eqb name "RequestFileJob" then
       mret (CreateFileJobAndStart (mate.Get_string dict "path" ""))
     else if String.eqb name "RequestErrorJob" then
       mret (CreateErrorJobAndStart (mate.Get_int dict "error" ERR_NOT_IMPLEMENTED))
     else if String.eqb name "RequestHttpJob" then
       mret (CreateHttpJobAndStart (mate.Get_string dict "url" "")
                                   (mate.Get_string dict "method" "")
                                   (mate.Get_string dict "referrer" ""))
     else mret (CustomProtocolRequestJob.no_job_type default_protocol_handler)
   else mret (CustomProtocolRequestJob.no_job_type default_protocol_handler)) w.
Proof.
  intros Hmap. unfold CustomProtocolRequestJob.GetJobTypeInUI.
  unfold mbind at 1, Task_bind at 1.
  rewrite GetProtocolHandler_run, Hmap. reflexivity.
Qed.

Lemma not_job_constructor_name (name : string) :
  name ∉ job_constructor_names →
  String.eqb name "RequestStringJob" = false ∧
  String.eqb name "RequestBufferJob" = false ∧
  String.eqb name "RequestFileJob" = false ∧
  String.eqb name "RequestErrorJob" = false ∧
  String.eqb name "RequestHttpJob" = false.
Proof.
  unfold job_constructor_names. intros Hname.
  repeat split; apply String.eqb_neq; intros ->; apply Hname; set_solver.
Qed.

Lemma GetJobTypeInUI_no_job_type default_protocol_handler request run w :
  protocol_handlers_ w !! scheme (url request) = Some (JsHandler run) →
  matches_job_kind (run request) = false →
  CustomProtocolRequestJob.GetJobTypeInUI default_protocol_handler request w =
  Returns (CustomProtocolRequestJob.no_job_type default_protocol_handler) w.
Proof.
  intros Hmap Hkind.
  rewrite (GetJobTypeInUI_handler _ _ _ _ Hmap).
  unfold matches_job_kind in Hkind.
  apply orb_false_iff in Hkind as [Hstring Hobject].
  unfold CustomProtocolRequestJob.Run_handler, mbind, Task_bind, mret, Task_ret.
  rewrite Hstring.
  destruct (v8.IsObject (run request)); [|reflexivity].
  simpl in Hobject. apply bool_decide_eq_false in Hobject.
  destruct (not_job_constructor_name _ Hobject) as (-> & -> & -> & -> & ->).
  reflexivity.
Qed.

(** C4.  Take a scheme in Registered mode whose handler is a JavaScript
    function.  The factory answers a request for the scheme with the
    adapter job that has no default handler.  When the value the function
    returns for the request is taken by no branch of [GetJobTypeInUI] (it
    is neither a string nor an object whose constructor is one of the
    five job classes), the adapter posts the error job with
    [ERR_NOT_IMPLEMENTED], and that is the job of the request. *)
Theorem unmatched_decision_not_implemented (request : URLRequest)
    (run : URLRequest → v8.Value) (w : World) :
  registration_mode (scheme (url request)) w = Some Registered →
  protocol_handlers_ w !! scheme (url request) = Some (JsHandler run) →
  matches_job_kind (run request) = false →
  AtomURLRequestJobFactory.MaybeCreateJobWithProtocolHandler request
    (job_factory_ w) = Some (CustomProtocolRequestJob None request) ∧
  CustomProtocolRequestJob.GetJobTypeInUI None request w =
    Returns (CreateErrorJobAndStart ERR_NOT_IMPLEMENTED) w ∧
  CustomProtocolRequestJob.resolve None request w =
    Returns (URLRequestErrorJob ERR_NOT_IMPLEMENTED) w.
Proof.
  intros Hmode Hmap Hkind.
  pose proof (GetJobTypeInUI_no_job_type None request run w Hmap Hkind) as Htype.
  split; [|split].
  - unfold registration_mode in Hmode. rewrite Hmap in Hmode.
    unfold AtomURLRequestJobFactory.MaybeCreateJobWithProtocolHandler.
    destruct (AtomURLRequestJobFactory.protocol_handler_map_ (job_factory_ w)
                !! scheme (url request)) as [[id|[wrapped|]]|]; try done.
  - exact Htype.
  - unfold CustomProtocolRequestJob.resolve, mbind, Task_bind.
    rewrite Htype. reflexivity.
Qed.

(** The same for "app" registered with a handler that returns undefined. *)
Lemma unmatched_decision_not_implemented_witness :
  registration_mode "app" (app_world say_nothing []) = Some Registered ∧
  CustomProtocolRequestJob.resolve None get_app (app_world say_nothing []) =
    Returns (URLRequestErrorJob ERR_NOT_IMPLEMENTED) (app_world say_nothing []).
Proof.
  split; [reflexivity|].
  apply (unmatched_decision_not_implemented get_app (λ _, v8.Undefined)
           (app_world say_nothing []) eq_refl eq_refl eq_refl).
Defined.

(** C7.  Let the handler of a scheme be a JavaScript function whose value
    for the request is taken by no branch of [GetJobTypeInUI]: the
    decision to fall back.  When the factory's handler for the scheme
    wraps a prior handler [H], the adapter job borrows [H], posts
    [CreateJobFromProtocolHandlerAndStart], and the job of the request is
    the very job [H] creates for it.  When the factory's handler wraps
    nothing, the same decision ends in the error job with
    [ERR_NOT_IMPLEMENTED]. *)
Theorem fallback_delegates_to_original (request : URLRequest)
    (run : URLRequest → v8.Value) (w : World) :
  protocol_handlers_ w !! scheme (url request) = Some (JsHandler run) →
  matches_job_kind (run request) = false →
  (∀ H,
     AtomURLRequestJobFactory.GetProtocolHandler (scheme (url request))
       (job_factory_ w) = Some (CustomProtocolHandler (Some H)) →
     AtomURLRequestJobFactory.MaybeCreateJobWithProtocolHandler request
       (job_factory_ w) = Some (CustomProtocolRequestJob (Some H) request) ∧
     CustomProtocolRequestJob.GetJobTypeInUI (Some H) request w =
       Returns CreateJobFromProtocolHandlerAndStart w ∧
     CustomProtocolRequestJob.resolve (Some H) request w =
       Returns (MaybeCreateJob H request) w) ∧
  (AtomURLRequestJobFactory.GetProtocolHandler (scheme (url request))
     (job_factory_ w) = Some (CustomProtocolHandler None) →
   AtomURLRequestJobFactory.MaybeCreateJobWithProtocolHandler request
     (job_factory_ w) = Some (CustomProtocolRequestJob None request) ∧
   CustomProtocolRequestJob.resolve None request w =
     Returns (URLRequestErrorJob ERR_NOT_IMPLEMENTED) w).
Proof.
  intros Hmap Hkind.
  unfold AtomURLRequestJobFactory.GetProtocolHandler,
    AtomURLRequestJobFactory.MaybeCreateJobWithProtocolHandler.
  split.
  - intros H Hget. rewrite Hget.
    pose proof (GetJobTypeInUI_no_job_type (Some H) request run w Hmap Hkind)
      as Htype.
    split; [done|]. split; [exact Htype|].
    unfold CustomProtocolRequestJob.resolve, mbind, Task_bind.
    rewrite Htype. reflexivity.
  - intros Hget. rewrite Hget. split; [done|].
    unfold CustomProtocolRequestJob.resolve, mbind, Task_bind.
    rewrite (GetJobTypeInUI_no_job_type None request run w Hmap Hkind).
    reflexivity.
Qed.

(** The same for "http" intercepted with a handler that returns undefined:
    the job is the one of the network stack. *)
Lemma fallback_delegates_to_original_witness :
  protocol_handlers_ (intercepted_world say_nothing []) !! "http" =
    Some say_nothing ∧
  matches_job_kind v8.Undefined = false ∧
  CustomProtocolRequestJob.resolve (Some (NetworkHandler 1)) get_http
    (intercepted_world say_nothing []) =
  Returns (NetworkJob 1 get_http) (intercepted_world say_nothing []).
Proof.
  split; [reflexivity|]. split; [reflexivity|].
  apply (fallback_delegates_to_original get_http (λ _, v8.Undefined)
           (intercepted_world say_nothing []) eq_refl eq_refl).
  reflexivity.
Defined.

(** C10.  When the JavaScript function stored for the scheme of a request
    returns the plain string [s], the adapter posts
    [CreateStringJobAndStart] with "text/plain", "UTF-8" and [s], with or
    without a default handler, and the job of the request is that string
    job. *)
Theorem plain_string_decision_is_string_job (request : URLRequest)
    (run : URLRequest → v8.Value) (s : string)
    (default_protocol_handler : option ProtocolHandler) (w : World) :
  protocol_handlers_ w !! scheme (url request) = Some (JsHandler run) →
  run request = v8.String s →
  CustomProtocolRequestJob.GetJobTypeInUI default_protocol_handler request w =
    Returns (CreateStringJobAndStart "text/plain" "UTF-8" s) w ∧
  CustomProtocolRequestJob.resolve default_protocol_handler request w =
    Returns (URLRequestStringJob "text/plain" "UTF-8" s) w.
Proof.
  intros Hmap Hresult.
  assert (CustomProtocolRequestJob.GetJobTypeInUI default_protocol_handler
            request w =
          Returns (CreateStringJobAndStart "text/plain" "UTF-8" s) w) as Htype.
  { rewrite (GetJobTypeInUI_handler _ _ _ _ Hmap).
    unfold CustomProtocolRequestJob.Run_handler, mbind, Task_bind, mret, Task_ret.
    rewrite Hresult. reflexivity. }
  split; [exact Htype|].
  unfold CustomProtocolRequestJob.resolve, mbind, Task_bind.
  rewrite Htype. reflexivity.
Qed.

(** The same for "app" registered with a handler that returns "hello". *)
Lemma plain_string_decision_is_string_job_witness :
  registration_mode "app" (app_world say_hello []) = Some Registered ∧
  CustomProtocolRequestJob.resolve None get_app (app_world say_hello []) =
    Returns (URLRequestStringJob "text/plain" "UTF-8" "hello")
      (app_world say_hello []).
Proof.
  split; [reflexivity|].
  apply (plain_string_decision_is_string_job get_app (λ _, v8.String "hello")
           "hello" None (app_world say_hello []) eq_refl eq_refl).
Defined.

(** ** One reply per operation *)

(** An operation that runs to its end has run the callback of its caller
    once, as its last step, with an error or with the success marker; and
    before a success marker a step on the IO thread changed the factory. *)
Lemma completed_mutation_replies_once (op : Mutation)
    (callback : JsCompletionCallback) (w w' : World) :
  invoke op callback w = Returns tt w' →
  ∃ steps arg,
    trace w' = trace w ++ steps ++ [UiRun callback arg] ∧
    replies callback steps = [] ∧
    replies callback (steps ++ [UiRun callback arg]) = [arg] ∧
    (arg = v8.Null → ∃ e, e ∈ steps ∧ changes_factory e = true) ∧
    (arg ≠ v8.Null →
       arg ∈ [AlreadyHandled; NotHandled; CannotInterceptCustom; NotRegistered]).
Proof.
  assert (∀ steps arg, replies callback steps = [] →
            replies callback (steps ++ [UiRun callback arg]) = [arg]) as Hlast.
  { intros steps arg Hsteps. rewrite replies_app, Hsteps. simpl.
    by rewrite decide_True. }
  destruct op as [scheme handler|scheme|scheme handler|scheme]; simpl.
  - rewrite RegisterProtocol_run. simpl.
    destruct (_ || _); intros [= <-]; simpl.
    + exists [IoQuery scheme
                (AtomURLRequestJobFactory.IsHandledProtocol scheme (job_factory_ w))],
        AlreadyHandled.
      split; [done|]. split; [done|]. split; [by apply Hlast|].
      split; [discriminate|]. intros _. set_solver.
    + eexists [_; _; _], v8.Null.
      split; [reflexivity|]. split; [done|]. split; [by apply Hlast|].
      split; [|done]. intros _.
      exists (IoSetProtocolHandler scheme (Some (CustomProtocolHandler None))).
      split; [set_solver|done].
  - rewrite UnregisterProtocol_run.
    destruct (bool_decide _); intros [= <-]; simpl.
    + eexists (_ :: _ :: deletions _), v8.Null.
      split; [reflexivity|].
      assert (replies callback
                (UiMapErase scheme :: IoSetProtocolHandler scheme None ::
                 deletions (AtomURLRequestJobFactory.GetProtocolHandler scheme
                              (job_factory_ w))) = []) as Hsteps.
      { simpl. apply replies_deletions. }
      split; [exact Hsteps|]. split; [by apply Hlast|].
      split; [|done]. intros _. exists (IoSetProtocolHandler scheme None).
      split; [|done]. set_solver.
    + exists [], NotRegistered.
      split; [done|]. split; [done|]. split; [by apply Hlast|].
      split; [discriminate|]. intros _. set_solver.
  - rewrite InterceptProtocol_run.
    destruct (AtomURLRequestJobFactory.GetProtocolHandler _ _) as [original|].
    + destruct (bool_decide _); intros [= <-]; simpl.
      * exists [IoQuery scheme true], CannotInterceptCustom.
        split; [done|]. split; [done|]. split; [by apply Hlast|].
        split; [discriminate|]. intros _. set_solver.
      * eexists [_; _; _], v8.Null.
        split; [reflexivity|]. split; [done|]. split; [by apply Hlast|].
        split; [|done]. intros _.
        exists (IoReplaceProtocol scheme (CustomProtocolHandler (Some original))).
        split; [set_solver|done].
    + intros [= <-]; simpl.
      exists [IoQuery scheme false], NotHandled.
      split; [done|]. split; [done|]. split; [by apply Hlast|].
      split; [discriminate|]. intros _. set_solver.
  - rewrite UninterceptProtocol_run.
    destruct (bool_decide _); simpl.
    + destruct (AtomURLRequestJobFactory.GetProtocolHandler _ _)
        as [[id|[original|]]|]; try discriminate.
      intros [= <-]; simpl.
      eexists [_; _; _; _], v8.Null.
      split; [reflexivity|]. split; [done|]. split; [by apply Hlast|].
      split; [|done]. intros _. exists (IoReplaceProtocol scheme original).
      split; [set_solver|done].
    + intros [= <-]; simpl.
      exists [], NotRegistered.
      split; [done|]. split; [done|]. split; [by apply Hlast|].
      split; [discriminate|]. intros _. set_solver.
Qed.

(** Registration, unregistration and interception always run to their
    end. *)
Lemma mutation_runs_to_its_end (op : Mutation)
    (callback : JsCompletionCallback) (w : World) :
  (∀ scheme, op ≠ Unintercept scheme) →
  ∃ w', invoke op callback w = Returns tt w'.
Proof.
  intros Hop. destruct op as [scheme handler|scheme|scheme handler|scheme]; simpl.
  - rewrite RegisterProtocol_run. simpl. destruct (_ || _); eauto.
  - rewrite UnregisterProtocol_run. destruct (bool_decide _); eauto.
  - rewrite InterceptProtocol_run.
    destruct (AtomURLRequestJobFactory.GetProtocolHandler _ _); [|eauto].
    destruct (bool_decide _); eauto.
  - by destruct (Hop scheme).
Qed.

(** C6 fails on [uninterceptProtocol] for a registered scheme.
    [registerProtocol("app")] goes through and its callback gets the
    success marker.  [uninterceptProtocol("app")] then finds the entry,
    erases it, and its task on the IO thread stops at [NOTREACHED()]:
    callback 8 is never run, with neither an error nor the success
    marker. *)
Theorem unintercept_registered_never_replies :
  ∃ events w',
    runs (Protocol.RegisterProtocol "app" say_hello 7) http_world events w' ∧
    replies 7 events = [v8.Null] ∧
    ∃ w'',
      Protocol.UninterceptProtocol "app" 8 w' = Dies NOTREACHED w'' ∧
      trace w'' = trace w' ++ [UiMapErase "app"] ∧
      replies 8 (trace w'') = [].
Proof.
  eexists _, _. split; [split; reflexivity|].
  split; [reflexivity|].
  eexists. split; [reflexivity|]. split; reflexivity.
Qed.

(** ** Map and factory together *)

Lemma consistent_lookup (w : World) :
  consistent w ↔
  ∀ scheme,
    agree (protocol_handlers_ w !! scheme)
      (AtomURLRequestJobFactory.protocol_handler_map_ (job_factory_ w) !! scheme)
    = true.
Proof.
  unfold consistent, disagreements. split.
  - intros Hempty scheme.
    pose proof (lookup_merge
      (λ stored serving, if agree stored serving then None else Some tt)
      (protocol_handlers_ w)
      (AtomURLRequestJobFactory.protocol_handler_map_ (job_factory_ w))
      scheme) as Hlookup.
    rewrite Hempty, lookup_empty in Hlookup. unfold diag_None in Hlookup.
    destruct (agree _ _) eqn:Hagree; [done|].
    destruct (protocol_handlers_ w !! scheme),
      (AtomURLRequestJobFactory.protocol_handler_map_ (job_factory_ w) !! scheme);
      discriminate.
  - intros Hagree. apply map_eq. intros scheme.
    rewrite lookup_merge, lookup_empty. specialize (Hagree scheme).
    unfold diag_None. rewrite Hagree.
    by destruct (protocol_handlers_ w !! scheme),
      (AtomURLRequestJobFactory.protocol_handler_map_ (job_factory_ w) !! scheme).
Qed.

(** X1.  The agreement of the registry map and the factory is kept by
    every operation that runs to its end: afterwards, again, every entry
    of the map goes with a custom handler in the factory that wraps
    nothing or a handler of the network stack, and the factory holds no
    custom handler without an entry.  In particular an interception never
    wraps another custom handler. *)
Theorem completed_mutation_keeps_agreement (op : Mutation)
    (callback : JsCompletionCallback) (w w' : World) :
  consistent w →
  invoke op callback w = Returns tt w' →
  consistent w'.
Proof.
  rewrite !consistent_lookup. intros Hw Hrun other.
  pose proof (Hw other) as Hother.
  destruct op as [scheme handler|scheme|scheme handler|scheme]; simpl in Hrun;
    pose proof (Hw scheme) as Hscheme.
  - rewrite RegisterProtocol_run in Hrun. simpl in Hrun.
    destruct (_ || _); injection Hrun as <-; simpl; [done|].
    destruct (decide (other = scheme)) as [->|Hne].
    + by rewrite !lookup_insert_eq.
    + by rewrite !lookup_insert_ne.
  - rewrite UnregisterProtocol_run in Hrun.
    destruct (bool_decide _); injection Hrun as <-; simpl; [|done].
    destruct (decide (other = scheme)) as [->|Hne].
    + by rewrite !lookup_delete_eq.
    + by rewrite !lookup_delete_ne.
  - rewrite InterceptProtocol_run in Hrun.
    unfold AtomURLRequestJobFactory.GetProtocolHandler in Hrun.
    destruct (AtomURLRequestJobFactory.protocol_handler_map_ (job_factory_ w)
                !! scheme) as [original|] eqn:Hget;
      [|injection Hrun as <-; done].
    case_bool_decide as Hkey; injection Hrun as <-; simpl; [done|].
    apply eq_None_not_Some in Hkey. rewrite Hkey in Hscheme.
    destruct (decide (other = scheme)) as [->|Hne].
    + rewrite !lookup_insert_eq. by destruct original.
    + by rewrite !lookup_insert_ne.
  - rewrite UninterceptProtocol_run in Hrun.
    case_bool_decide as Hkey; [|injection Hrun as <-; done].
    unfold AtomURLRequestJobFactory.GetProtocolHandler in Hrun.
    destruct Hkey as [stored Hkey]. rewrite Hkey in Hscheme.
    destruct (AtomURLRequestJobFactory.protocol_handler_map_ (job_factory_ w)
                !! scheme) as [[id|[original|]]|] eqn:Hget; try done.
    injection Hrun as <-; simpl.
    destruct (decide (other = scheme)) as [->|Hne].
    + rewrite lookup_delete_eq, lookup_insert_eq. by destruct original.
    + by rewrite lookup_delete_ne, lookup_insert_ne.
Qed.

(** The same on [http_world], where "app" gets registered. *)
Lemma completed_mutation_keeps_agreement_witness :
  consistent http_world ∧
  ∃ w', invoke (Register "app" say_hello) 7 http_world = Returns tt w' ∧
        consistent w'.
Proof.
  split; [reflexivity|].
  eexists. split; [reflexivity|].
  apply (completed_mutation_keeps_agreement (Register "app" say_hello) 7
           http_world _ eq_refl eq_refl).
Defined.

(** X2.  An operation on one scheme leaves the entry of the map and the
    handler of the factory of every other scheme as they were, also when
    the run stops at an assertion. *)
Theorem mutation_leaves_other_schemes (op : Mutation)
    (callback : JsCompletionCallback) (w : World) (other : string) :
  other ≠ scheme_of op →
  protocol_handlers_ (world_after (invoke op callback w)) !! other =
    protocol_handlers_ w !! other ∧
  AtomURLRequestJobFactory.GetProtocolHandler other
    (job_factory_ (world_after (invoke op callback w))) =
    AtomURLRequestJobFactory.GetProtocolHandler other (job_factory_ w).
Proof.
  intros Hne. unfold AtomURLRequestJobFactory.GetProtocolHandler.
  destruct op as [scheme handler|scheme|scheme handler|scheme]; simpl in *.
  - rewrite RegisterProtocol_run. simpl.
    destruct (_ || _); simpl; [done|]. by rewrite !lookup_insert_ne.
  - rewrite UnregisterProtocol_run.
    destruct (bool_decide _); simpl; [|done]. by rewrite !lookup_delete_ne.
  - rewrite InterceptProtocol_run.
    destruct (AtomURLRequestJobFactory.GetProtocolHandler _ _); [|done].
    destruct (bool_decide _); simpl; [done|]. by rewrite !lookup_insert_ne.
  - rewrite UninterceptProtocol_run.
    destruct (bool_decide _); simpl; [|done].
    destruct (AtomURLRequestJobFactory.GetProtocolHandler _ _)
      as [[id|[original|]]|]; simpl; rewrite ?lookup_delete_ne by done;
      rewrite ?lookup_insert_ne by done; done.
Qed.

(** The same on [intercepted_world]: an unregistration of "app" leaves
    the entry of "http" alone. *)
Lemma mutation_leaves_other_schemes_witness :
  "http" ≠ scheme_of (Unregister "app") ∧
  protocol_handlers_
    (world_after (invoke (Unregister "app") 7 (intercepted_world say_hello [])))
    !! "http" = Some say_hello.
Proof.
  split; [discriminate|].
  destruct (mutation_leaves_other_schemes (Unregister "app") 7
              (intercepted_world say_hello []) "http") as [Hmap _];
    [discriminate|].
  rewrite Hmap. reflexivity.
Defined.

(** X3.  An operation that replies with an error has changed nothing: the
    registry map and the factory are the ones before, and no step of the
    run changed the factory. *)
Theorem refused_mutation_changes_nothing (op : Mutation)
    (callback : JsCompletionCallback) (w w' : World) (events : list Event) :
  runs (invoke op callback) w events w' →
  replies callback events ≠ [v8.Null] →
  protocol_handlers_ w' = protocol_handlers_ w ∧
  job_factory_ w' = job_factory_ w ∧
  Forall (λ e, changes_factory e = false) events.
Proof.
  intros [Hrun Htrace] Hreply.
  destruct op as [scheme handler|scheme|scheme handler|scheme]; simpl in Hrun.
  - rewrite RegisterProtocol_run in Hrun. simpl in Hrun.
    destruct (_ || _); injection Hrun as <-; simpl in Htrace;
      apply app_inv_head in Htrace as <-.
    + repeat split; try done. repeat constructor.
    + destruct Hreply. simpl. by rewrite decide_True.
  - rewrite UnregisterProtocol_run in Hrun.
    destruct (bool_decide _); injection Hrun as <-; simpl in Htrace;
      apply app_inv_head in Htrace as <-.
    + destruct Hreply. simpl. rewrite replies_app, replies_deletions. simpl.
      by rewrite decide_True.
    + repeat split; try done. repeat constructor.
  - rewrite InterceptProtocol_run in Hrun.
    destruct (AtomURLRequestJobFactory.GetProtocolHandler _ _) as [original|].
    + destruct (bool_decide _); injection Hrun as <-; simpl in Htrace;
        apply app_inv_head in Htrace as <-.
      * repeat split; try done. repeat constructor.
      * destruct Hreply. simpl. by rewrite decide_True.
    + injection Hrun as <-; simpl in Htrace.
      apply app_inv_head in Htrace as <-.
      repeat split; try done. repeat constructor.
  - rewrite UninterceptProtocol_run in Hrun.
    destruct (bool_decide _); simpl in Hrun.
    + destruct (AtomURLRequestJobFactory.GetProtocolHandler _ _)
        as [[id|[original|]]|]; try discriminate.
      injection Hrun as <-; simpl in Htrace.
      apply app_inv_head in Htrace as <-.
      destruct Hreply. simpl. by rewrite decide_True.
    + injection Hrun as <-; simpl in Htrace.
      apply app_inv_head in Htrace as <-.
      repeat split; try done. repeat constructor.
Qed.

(** The same on [intercepted_world]: a second interception of "http". *)
Lemma refused_mutation_changes_nothing_witness :
  ∃ w' events,
    runs (invoke (Intercept "http" say_nothing) 8)
      (intercepted_world say_hello []) events w' ∧
    replies 8 events ≠ [v8.Null] ∧
    job_factory_ w' = job_factory_ (intercepted_world say_hello []).
Proof.
  eexists _, _.
  assert (runs (invoke (Intercept "http" say_nothing) 8)
            (intercepted_world say_hello [])
            [IoQuery "http" true; UiRun 8 CannotInterceptCustom]
            (intercepted_world say_hello
               [IoQuery "http" true; UiRun 8 CannotInterceptCustom])) as Hrun
    by (split; reflexivity).
  assert (replies 8 [IoQuery "http" true; UiRun 8 CannotInterceptCustom]
          ≠ [v8.Null]) as Hreply by discriminate.
  split; [exact Hrun|]. split; [exact Hreply|].
  exact (proj1 (proj2 (refused_mutation_changes_nothing _ _ _ _ _ Hrun Hreply))).
Defined.

(** X4.  On a world where map and factory agree, [UninterceptProtocol]
    has three outcomes and no other.  Without an entry for the scheme the
    callback gets the not-registered error.  With an entry in Intercepted
    mode the run goes to its end and the callback gets the success marker.
    With an entry in Registered mode the run stops at [NOTREACHED()].  No
    run stops at a null pointer or a wrong cast. *)
Theorem unintercept_outcomes (scheme : string)
    (callback : JsCompletionCallback) (w : World) :
  consistent w →
  match registration_mode scheme w with
  | None =>
      protocol_handlers_ w !! scheme = None ∧
      ∃ w', runs (Protocol.UninterceptProtocol scheme callback) w
              [UiRun callback NotRegistered] w'
  | Some Intercepted =>
      ∃ events w',
        runs (Protocol.UninterceptProtocol scheme callback) w events w' ∧
        replies callback events = [v8.Null]
  | Some Registered =>
      ∃ w', Protocol.UninterceptProtocol scheme callback w = Dies NOTREACHED w'
  end.
Proof.
  rewrite consistent_lookup. intros Hw. specialize (Hw scheme).
  pose proof (UninterceptProtocol_run scheme callback w) as Hrun.
  unfold registration_mode.
  unfold AtomURLRequestJobFactory.GetProtocolHandler in Hrun.
  destruct (protocol_handlers_ w !! scheme) as [stored|] eqn:Hmap.
  - rewrite bool_decide_eq_true_2 in Hrun by eauto.
    destruct (AtomURLRequestJobFactory.protocol_handler_map_ (job_factory_ w)
                !! scheme) as [[id|[original|]]|]; try done.
    + settle_run Hrun. done.
    + eauto.
  - rewrite bool_decide_eq_false_2 in Hrun by (intros [? ?]; done).
    assert (∃ w', runs (Protocol.UninterceptProtocol scheme callback) w
                    [UiRun callback NotRegistered] w') as Hrefused.
    { eexists. split; [exact Hrun | reflexivity]. }
    by destruct (AtomURLRequestJobFactory.protocol_handler_map_ (job_factory_ w)
                !! scheme) as [[id|[original|]]|].
Qed.

(** The same on [app_world], where "app" is in Registered mode. *)
Lemma unintercept_outcomes_witness :
  consistent (app_world say_hello []) ∧
  ∃ w', Protocol.UninterceptProtocol "app" 8 (app_world say_hello []) =
        Dies NOTREACHED w'.
Proof.
  split; [reflexivity|].
  exact (unintercept_outcomes "app" 8 (app_world say_hello []) eq_refl).
Defined.

(** ** Operations one after the other *)

Lemma not_handled_no_handler scheme f :
  AtomURLRequestJobFactory.IsHandledProtocol scheme f = false →
  AtomURLRequestJobFactory.protocol_handler_map_ f !! scheme = None.
Proof.
  unfold AtomURLRequestJobFactory.IsHandledProtocol,
    AtomURLRequestJobFactory.HasProtocolHandler.
  intros Hhandled. apply orb_false_iff in Hhandled as [Hhas _].
  apply bool_decide_eq_false in Hhas. by apply eq_None_not_Some.
Qed.

(** X5.  Registration and unregistration undo each other.  For a scheme
    that has no entry and that the factory does not report as handled,
    [RegisterProtocol] goes through and the factory then has a handler for
    the scheme; [UnregisterProtocol] after it goes through as well,
    deletes exactly the custom handler the registration installed, and
    leaves the registry map and the factory as they were before the
    registration. *)
Theorem register_then_unregister_restores (scheme : string)
    (handler : JsProtocolHandler) (callback callback' : JsCompletionCallback)
    (w : World) :
  protocol_handlers_ w !! scheme = None →
  AtomURLRequestJobFactory.IsHandledProtocol scheme (job_factory_ w) = false →
  ∃ events w' w'',
    runs (Protocol.RegisterProtocol scheme handler callback) w events w' ∧
    replies callback events = [v8.Null] ∧
    AtomURLRequestJobFactory.HasProtocolHandler scheme (job_factory_ w') = true ∧
    runs (Protocol.UnregisterProtocol scheme callback') w'
      [UiMapErase scheme;
       IoSetProtocolHandler scheme None;
       IoDelete (CustomProtocolHandler None);
       UiRun callback' v8.Null] w'' ∧
    protocol_handlers_ w'' = protocol_handlers_ w ∧
    job_factory_ w'' = job_factory_ w.
Proof.
  intros Hmap Hhandled.
  pose proof (not_handled_no_handler _ _ Hhandled) as Hget.
  pose proof (RegisterProtocol_run scheme handler callback w) as Hrun.
  simpl in Hrun. rewrite Hhandled in Hrun.
  rewrite bool_decide_eq_false_2 in Hrun by (rewrite Hmap; intros [? ?]; done).
  simpl in Hrun.
  eexists _, _, _. split; [split; [exact Hrun | reflexivity]|].
  simpl. rewrite decide_True by done. split; [done|].
  unfold AtomURLRequestJobFactory.HasProtocolHandler. simpl.
  rewrite lookup_insert_eq. split; [by apply bool_decide_eq_true_2|].
  match goal with |- context [runs _ ?w1 _ _] => set (w1' := w1) end.
  pose proof (UnregisterProtocol_run scheme callback' w1') as Hrun'.
  unfold AtomURLRequestJobFactory.GetProtocolHandler in Hrun'.
  simpl in Hrun'. rewrite !lookup_insert_eq in Hrun'.
  rewrite bool_decide_eq_true_2 in Hrun' by eauto.
  rewrite !delete_insert_id in Hrun' by done.
  split; [split; [exact Hrun' | simpl; by rewrite <- app_assoc]|].
  simpl. split; [done|]. by destruct (job_factory_ w).
Qed.

(** The same on [http_world], for the scheme "app". *)
Lemma register_then_unregister_restores_witness :
  ∃ events w' w'',
    runs (Protocol.RegisterProtocol "app" say_hello 7) http_world events w' ∧
    runs (Protocol.UnregisterProtocol "app" 8) w'
      [UiMapErase "app"; IoSetProtocolHandler "app" None;
       IoDelete (CustomProtocolHandler None); UiRun 8 v8.Null] w'' ∧
    job_factory_ w'' = job_factory_ http_world.
Proof.
  destruct (register_then_unregister_restores "app" say_hello 7 8 http_world
              eq_refl eq_refl)
    as (events & w' & w'' & Hrun & _ & _ & Hrun' & _ & Hfactory).
  exists events, w', w''. auto.
Defined.

(** X6.  Unregistration does not tell an interception from a
    registration.  After an interception of a scheme the factory served
    with [H] went through, [UnregisterProtocol] for the scheme goes
    through: the wrapping handler is deleted and [H] with it, the factory
    is left without any handler for the scheme, so it creates no job for
    a request to it, and the registry map is the one before the
    interception. *)
Theorem unregister_intercepted_drops_original (scheme : string)
    (H : ProtocolHandler) (handler : JsProtocolHandler)
    (callback callback' : JsCompletionCallback) (w : World) :
  AtomURLRequestJobFactory.GetProtocolHandler scheme (job_factory_ w) = Some H →
  protocol_handlers_ w !! scheme = None →
  ∃ events w' w'',
    runs (Protocol.InterceptProtocol scheme handler callback) w events w' ∧
    replies callback events = [v8.Null] ∧
    runs (Protocol.UnregisterProtocol scheme callback') w'
      (UiMapErase scheme ::
       IoSetProtocolHandler scheme None ::
       IoDelete (CustomProtocolHandler (Some H)) ::
       (IoDelete <$> destroyed H) ++ [UiRun callback' v8.Null]) w'' ∧
    IoDelete H ∈ (IoDelete <$> destroyed H) ∧
    AtomURLRequestJobFactory.GetProtocolHandler scheme (job_factory_ w'') = None ∧
    (∀ request, scheme = net.scheme (url request) →
       AtomURLRequestJobFactory.MaybeCreateJobWithProtocolHandler request
         (job_factory_ w'') = None) ∧
    protocol_handlers_ w'' = protocol_handlers_ w.
Proof.
  intros Hget Hmap.
  pose proof (InterceptProtocol_run scheme handler callback w) as Hrun.
  rewrite Hget in Hrun.
  rewrite bool_decide_eq_false_2 in Hrun by (rewrite Hmap; intros [? ?]; done).
  eexists _, _, _. split; [split; [exact Hrun | reflexivity]|].
  simpl. rewrite decide_True by done. split; [done|].
  match goal with |- context [runs _ ?w1 _ _] => set (w1' := w1) end.
  pose proof (UnregisterProtocol_run scheme callback' w1') as Hrun'.
  unfold AtomURLRequestJobFactory.GetProtocolHandler in Hrun'.
  simpl in Hrun'. rewrite !lookup_insert_eq in Hrun'.
  rewrite bool_decide_eq_true_2 in Hrun' by eauto.
  split; [split; [exact Hrun' | reflexivity]|].
  unfold AtomURLRequestJobFactory.GetProtocolHandler,
    AtomURLRequestJobFactory.MaybeCreateJobWithProtocolHandler. simpl.
  split; [|split; [|split]].
  - apply list_elem_of_fmap. exists H. split; [done|].
    destruct H as [id|[wrapped|]]; simpl; set_solver.
  - apply lookup_delete_eq.
  - intros request ->. by rewrite lookup_delete_eq.
  - by rewrite delete_insert_id.
Qed.

(** The same on [http_world]: "http" is intercepted, then unregistered. *)
Lemma unregister_intercepted_drops_original_witness :
  ∃ events w' w'',
    runs (Protocol.InterceptProtocol "http" say_hello 7) http_world events w' ∧
    runs (Protocol.UnregisterProtocol "http" 8) w'
      [UiMapErase "http"; IoSetProtocolHandler "http" None;
       IoDelete (CustomProtocolHandler (Some (NetworkHandler 1)));
       IoDelete (NetworkHandler 1); UiRun 8 v8.Null] w'' ∧
    AtomURLRequestJobFactory.MaybeCreateJobWithProtocolHandler get_http
      (job_factory_ w'') = None.
Proof.
  destruct (unregister_intercepted_drops_original "http" (NetworkHandler 1)
              say_hello 7 8 http_world eq_refl eq_refl)
    as (events & w' & w'' & Hrun & _ & Hrun' & _ & _ & Hjob & _).
  exists events, w', w''. split; [exact Hrun|]. split; [exact Hrun'|].
  by apply Hjob.
Defined.

(** ** Jobs and the registry *)

Lemma GetJobTypeInUI_no_entry default_protocol_handler request w :
  protocol_handlers_ w !! scheme (url request) = None →
  CustomProtocolRequestJob.GetJobTypeInUI default_protocol_handler request w =
  Dies NullCallbackRun
    {| protocol_handlers_ :=
         <[scheme (url request) := NullHandler]> (protocol_handlers_ w);
       job_factory_ := job_factory_ w;
       trace := trace w ++ [UiMapAssign (scheme (url request)) NullHandler] |}.
Proof.
  intros Hmap. unfold CustomProtocolRequestJob.GetJobTypeInUI.
  unfold mbind at 1, Task_bind at 1.
  rewrite GetProtocolHandler_run, Hmap. reflexivity.
Qed.

(** X7.  A job that is still waiting for its decision when its scheme is
    unregistered never gets one.  After [UnregisterProtocol] went through,
    [GetJobTypeInUI] for a request of that scheme looks the handler up,
    which puts a null handler into the registry map, and stops at the call
    of that null callback: no task is posted and the request ends with no
    job. *)
Theorem pending_job_after_unregister (request : URLRequest)
    (default_protocol_handler : option ProtocolHandler)
    (callback : JsCompletionCallback) (w : World) :
  is_Some (protocol_handlers_ w !! scheme (url request)) →
  ∃ events w' w'',
    runs (Protocol.UnregisterProtocol (scheme (url request)) callback) w
      events w' ∧
    replies callback events = [v8.Null] ∧
    CustomProtocolRequestJob.GetJobTypeInUI default_protocol_handler request w' =
      Dies NullCallbackRun w'' ∧
    CustomProtocolRequestJob.resolve default_protocol_handler request w' =
      Dies NullCallbackRun w'' ∧
    protocol_handlers_ w'' !! scheme (url request) = Some NullHandler ∧
    trace w'' = trace w' ++ [UiMapAssign (scheme (url request)) NullHandler].
Proof.
  intros Hkey.
  pose proof (UnregisterProtocol_run (scheme (url request)) callback w) as Hrun.
  rewrite bool_decide_eq_true_2 in Hrun by done.
  eexists _, _, _. split; [split; [exact Hrun | reflexivity]|].
  split.
  { simpl. rewrite replies_app, replies_deletions. simpl.
    by rewrite decide_True. }
  match goal with
  | |- context [CustomProtocolRequestJob.GetJobTypeInUI _ _ ?w1] =>
      set (w1' := w1)
  end.
  assert (protocol_handlers_ w1' !! scheme (url request) = None) as Hgone
    by apply lookup_delete_eq.
  pose proof (GetJobTypeInUI_no_entry default_protocol_handler request w1' Hgone)
    as Htype.
  split; [exact Htype|].
  split.
  { unfold CustomProtocolRequestJob.resolve, mbind, Task_bind. by rewrite Htype. }
  simpl. split; [apply lookup_insert_eq | reflexivity].
Qed.

(** The same on [app_world]: "app" is unregistered under a waiting job. *)
Lemma pending_job_after_unregister_witness :
  is_Some (protocol_handlers_ (app_world say_hello []) !! "app") ∧
  ∃ events w' w'',
    runs (Protocol.UnregisterProtocol "app" 7) (app_world say_hello [])
      events w' ∧
    CustomProtocolRequestJob.resolve None get_app w' = Dies NullCallbackRun w''.
Proof.
  assert (is_Some (protocol_handlers_ (app_world say_hello [])
                     !! scheme (url get_app))) as Hkey
    by (exists say_hello; reflexivity).
  split; [exact Hkey|].
  destruct (pending_job_after_unregister get_app None 7 (app_world say_hello [])
              Hkey)
    as (events & w' & w'' & Hrun & _ & _ & Hresolve & _).
  exists events, w', w''. auto.
Defined.

(** X8.  The handler of a job is the one stored when the decision is
    taken, not the one stored when the job was created.  When the scheme
    of a waiting job is unregistered and registered again with a function
    that answers the request with the string [text], both operations go
    through and the job resolves to the string job for [text], whatever
    handler was stored before. *)
Theorem job_asks_handler_stored_at_decision (request : URLRequest)
    (default_protocol_handler : option ProtocolHandler)
    (old : JsProtocolHandler) (run : URLRequest → v8.Value) (text : string)
    (callback callback' : JsCompletionCallback) (w : World) :
  protocol_handlers_ w !! scheme (url request) = Some old →
  scheme (url request) ∉ AtomURLRequestJobFactory.net_handled_ (job_factory_ w) →
  run request = v8.String text →
  ∃ events w' events' w'',
    runs (Protocol.UnregisterProtocol (scheme (url request)) callback) w
      events w' ∧
    replies callback events = [v8.Null] ∧
    runs (Protocol.RegisterProtocol (scheme (url request)) (JsHandler run)
            callback') w' events' w'' ∧
    replies callback' events' = [v8.Null] ∧
    CustomProtocolRequestJob.resolve default_protocol_handler request w'' =
      Returns (URLRequestStringJob "text/plain" "UTF-8" text) w''.
Proof.
  intros Hmap Hnet Hresult.
  pose proof (UnregisterProtocol_run (scheme (url request)) callback w) as Hrun.
  rewrite bool_decide_eq_true_2 in Hrun by eauto.
  eexists _, _, _, _. split; [split; [exact Hrun | reflexivity]|].
  split.
  { simpl. rewrite replies_app, replies_deletions. simpl.
    by rewrite decide_True. }
  match goal with |- context [runs _ ?w1 _ _] => set (w1' := w1) end.
  pose proof (RegisterProtocol_run (scheme (url request)) (JsHandler run)
                callback' w1') as Hrun'.
  simpl in Hrun'.
  unfold AtomURLRequestJobFactory.IsHandledProtocol,
    AtomURLRequestJobFactory.HasProtocolHandler in Hrun'.
  simpl in Hrun'. rewrite !lookup_delete_eq in Hrun'.
  rewrite (bool_decide_eq_false_2 (is_Some None)) in Hrun'
    by (intros [? ?]; done).
  rewrite (bool_decide_eq_false_2 _ Hnet) in Hrun'. simpl in Hrun'.
  split; [split; [exact Hrun' | reflexivity]|].
  split; [simpl; by rewrite decide_True|].
  match goal with
  | |- CustomProtocolRequestJob.resolve _ _ ?w2 = _ => set (w2' := w2)
  end.
  assert (protocol_handlers_ w2' !! scheme (url request) = Some (JsHandler run))
    as Hnew by apply lookup_insert_eq.
  unfold CustomProtocolRequestJob.resolve, mbind, Task_bind.
  rewrite (GetJobTypeInUI_handler _ _ _ _ Hnew).
  unfold CustomProtocolRequestJob.Run_handler, mbind, Task_bind, mret, Task_ret.
  rewrite Hresult. reflexivity.
Qed.

(** The same on [app_world]: "app" answered nothing, then says hello. *)
Lemma job_asks_handler_stored_at_decision_witness :
  ∃ events w' events' w'',
    runs (Protocol.UnregisterProtocol "app" 7) (app_world say_nothing [])
      events w' ∧
    runs (Protocol.RegisterProtocol "app" say_hello 8) w' events' w'' ∧
    CustomProtocolRequestJob.resolve None get_app w'' =
      Returns (URLRequestStringJob "text/plain" "UTF-8" "hello") w''.
Proof.
  assert ("app" ∉ AtomURLRequestJobFactory.net_handled_
                    (job_factory_ (app_world say_nothing []))) as Hnet
    by (simpl; set_solver).
  destruct (job_asks_handler_stored_at_decision get_app None say_nothing
              (λ _, v8.String "hello") "hello" 7 8 (app_world say_nothing [])
              eq_refl Hnet eq_refl)
    as (events & w' & events' & w'' & Hrun & _ & Hrun' & _ & Hjob).
  exists events, w', events', w''. auto.
Defined.

(** ** The branches of the decision *)

Lemma Get_missing (key : string) (properties : list (string * v8.Value)) :
  (∀ value, (key, value) ∉ properties) →
  mate.Get key properties = v8.Undefined.
Proof.
  induction properties as [|[name value] rest IH]; intros Hmissing; simpl.
  - reflexivity.
  - destruct (String.eqb_spec name key) as [->|Hname].
    + destruct (Hmissing value). left.
    + apply IH. intros other Hin. apply (Hmissing other). by right.
Qed.

(** X9.  A decision object of class RequestErrorJob always ends in an
    error job, with or without a default handler.  Its code is the "error"
    property when that is a 32-bit integer; when the object has no such
    property, or when it is no 32-bit integer, the code is
    [ERR_NOT_IMPLEMENTED]. *)
Theorem error_job_code (request : URLRequest) (run : URLRequest → v8.Value)
    (properties : list (string * v8.Value))
    (default_protocol_handler : option ProtocolHandler) (w : World) :
  protocol_handlers_ w !! scheme (url request) = Some (JsHandler run) →
  run request = v8.Object "RequestErrorJob" properties →
  ∃ error,
    CustomProtocolRequestJob.GetJobTypeInUI default_protocol_handler request w =
      Returns (CreateErrorJobAndStart error) w ∧
    CustomProtocolRequestJob.resolve default_protocol_handler request w =
      Returns (URLRequestErrorJob error) w ∧
    (∀ n, mate.Get "error" properties = v8.Number n →
          (-2147483648 ≤ n ≤ 2147483647)%Z → error = n) ∧
    ((∀ value, ("error", value) ∉ properties) → error = ERR_NOT_IMPLEMENTED) ∧
    (v8.IsInt32 (mate.Get "error" properties) = false →
       error = ERR_NOT_IMPLEMENTED).
Proof.
  intros Hmap Hresult.
  exists (mate.Get_int properties "error" ERR_NOT_IMPLEMENTED).
  assert (CustomProtocolRequestJob.GetJobTypeInUI default_protocol_handler
            request w =
          Returns (CreateErrorJobAndStart
                     (mate.Get_int properties "error" ERR_NOT_IMPLEMENTED)) w)
    as Htype.
  { rewrite (GetJobTypeInUI_handler _ _ _ _ Hmap).
    unfold CustomProtocolRequestJob.Run_handler, mbind, Task_bind, mret, Task_ret.
    rewrite Hresult. reflexivity. }
  split; [exact Htype|]. split.
  { unfold CustomProtocolRequestJob.resolve, mbind, Task_bind.
    rewrite Htype. reflexivity. }
  unfold mate.Get_int. split; [|split].
  - intros n -> Hrange. unfold v8.IsInt32.
    by rewrite bool_decide_eq_true_2.
  - intros Hmissing. by rewrite (Get_missing _ _ Hmissing).
  - intros Hint. destruct (mate.Get "error" properties); try done.
    by rewrite Hint.
Qed.

(** The same for "app" registered with a handler that returns an empty
    RequestErrorJob object. *)
Lemma error_job_code_witness :
  CustomProtocolRequestJob.resolve None get_app
    (app_world (JsHandler (λ _, v8.Object "RequestErrorJob" [])) []) =
  Returns (URLRequestErrorJob ERR_NOT_IMPLEMENTED)
    (app_world (JsHandler (λ _, v8.Object "RequestErrorJob" [])) []).
Proof.
  destruct (error_job_code get_app (λ _, v8.Object "RequestErrorJob" []) []
              None (app_world (JsHandler (λ _, v8.Object "RequestErrorJob" [])) [])
              eq_refl eq_refl)
    as (error & _ & Hjob & _ & Hmissing & _).
  rewrite Hjob, Hmissing; [reflexivity|].
  intros value Hin. inversion Hin.
Defined.

(** X10.  A decision that one branch of [GetJobTypeInUI] takes (a string,
    or an object of one of the five job classes) is settled without the
    default handler: the outcome is the same with any default handler as
    with none, and the task posted is never the one that asks the
    default handler.  An interception falls back to the original handler
    only on a decision no branch takes. *)
Theorem matched_decision_ignores_default (request : URLRequest)
    (run : URLRequest → v8.Value)
    (default_protocol_handler : option ProtocolHandler) (w : World) :
  protocol_handlers_ w !! scheme (url request) = Some (JsHandler run) →
  matches_job_kind (run request) = true →
  CustomProtocolRequestJob.GetJobTypeInUI default_protocol_handler request w =
    CustomProtocolRequestJob.GetJobTypeInUI None request w ∧
  ∀ task w',
    CustomProtocolRequestJob.GetJobTypeInUI default_protocol_handler request w =
      Returns task w' →
    task ≠ CreateJobFromProtocolHandlerAndStart.
Proof.
  intros Hmap Hkind.
  rewrite !(GetJobTypeInUI_handler _ _ _ _ Hmap).
  unfold CustomProtocolRequestJob.Run_handler, mbind, Task_bind, mret, Task_ret.
  unfold matches_job_kind in Hkind.
  destruct (v8.IsString (run request)) eqn:Hstring.
  { split; [reflexivity|]. intros task w' [= <- _]. discriminate. }
  simpl in Hkind. apply andb_true_iff in Hkind as [Hobject Hname].
  rewrite Hobject. apply bool_decide_eq_true in Hname.
  unfold job_constructor_names in Hname.
  destruct (CustomProtocolRequestJob.BufferToRefCountedBytes
              (mate.Get "data" (v8.Properties (run request))) w)
    as [data wdata|why wdata] eqn:Hbuffer.
  - repeat (apply elem_of_cons in Hname as [->|Hname]); simpl;
      rewrite ?Hbuffer;
      try (split; [reflexivity|]; intros task w' [= <- _]; discriminate).
    by apply elem_of_nil in Hname.
  - repeat (apply elem_of_cons in Hname as [->|Hname]); simpl;
      rewrite ?Hbuffer;
      try (split; [reflexivity|]; intros task w'; discriminate);
      try (split; [reflexivity|]; intros task w' [= <- _]; discriminate).
    by apply elem_of_nil in Hname.
Qed.

(** The same for "http" intercepted with a handler that says hello: the
    handler of the network stack is not asked. *)
Lemma matched_decision_ignores_default_witness :
  matches_job_kind (v8.String "hello") = true ∧
  CustomProtocolRequestJob.GetJobTypeInUI (Some (NetworkHandler 1)) get_http
    (intercepted_world say_hello []) =
  CustomProtocolRequestJob.GetJobTypeInUI None get_http
    (intercepted_world say_hello []).
Proof.
  split; [reflexivity|].
  exact (proj1 (matched_decision_ignores_default get_http
                  (λ _, v8.String "hello") (Some (NetworkHandler 1))
                  (intercepted_world say_hello []) eq_refl eq_refl)).
Defined.



(** X12.  On a world where map and factory agree, a request to a scheme
    with an entry always gets an adapter job from the factory, and a
    decision that no branch takes ends outside this file: in the error job
    with [ERR_NOT_IMPLEMENTED] when the scheme is registered, in the job
    of a handler of the network stack when it is intercepted.  The
    fallback never hands the request to another adapter job. *)
Theorem unmatched_decision_leaves_the_adapter (request : URLRequest)
    (run : URLRequest → v8.Value) (w : World) :
  consistent w →
  protocol_handlers_ w !! scheme (url request) = Some (JsHandler run) →
  matches_job_kind (run request) = false →
  ∃ default_protocol_handler,
    AtomURLRequestJobFactory.MaybeCreateJobWithProtocolHandler request
      (job_factory_ w) =
      Some (CustomProtocolRequestJob default_protocol_handler request) ∧
    ((default_protocol_handler = None ∧
      registration_mode (scheme (url request)) w = Some Registered ∧
      CustomProtocolRequestJob.resolve default_protocol_handler request w =
        Returns (URLRequestErrorJob ERR_NOT_IMPLEMENTED) w) ∨
     (∃ id,
        default_protocol_handler = Some (NetworkHandler id) ∧
        registration_mode (scheme (url request)) w = Some Intercepted ∧
        CustomProtocolRequestJob.resolve default_protocol_handler request w =
          Returns (NetworkJob id request) w)).
Proof.
  rewrite consistent_lookup. intros Hw Hmap Hkind.
  specialize (Hw (scheme (url request))). rewrite Hmap in Hw.
  unfold AtomURLRequestJobFactory.MaybeCreateJobWithProtocolHandler,
    registration_mode.
  rewrite Hmap.
  destruct (AtomURLRequestJobFactory.protocol_handler_map_ (job_factory_ w)
              !! scheme (url request)) as [[id|[[id|wrapped]|]]|]; try done.
  - exists (Some (NetworkHandler id)). split; [done|]. right. exists id.
    split; [done|]. split; [done|].
    unfold CustomProtocolRequestJob.resolve, mbind, Task_bind.
    by rewrite (GetJobTypeInUI_no_job_type _ _ _ _ Hmap Hkind).
  - exists None. split; [done|]. left. split; [done|]. split; [done|].
    unfold CustomProtocolRequestJob.resolve, mbind, Task_bind.
    by rewrite (GetJobTypeInUI_no_job_type _ _ _ _ Hmap Hkind).
Qed.

(** The same for "http" intercepted with a handler that returns
    undefined. *)
Lemma unmatched_decision_leaves_the_adapter_witness :
  consistent (intercepted_world say_nothing []) ∧
  ∃ default_protocol_handler,
    AtomURLRequestJobFactory.MaybeCreateJobWithProtocolHandler get_http
      (job_factory_ (intercepted_world say_nothing [])) =
      Some (CustomProtocolRequestJob default_protocol_handler get_http).
Proof.
  split; [reflexivity|].
  destruct (unmatched_decision_leaves_the_adapter get_http (λ _, v8.Undefined)
              (intercepted_world say_nothing []) eq_refl eq_refl eq_refl)
    as (default_protocol_handler & Hjob & _).
  by exists default_protocol_handler.
Defined.

(** X13.  A decision object of class RequestBufferJob needs a node buffer
    in its "data" property.  With one, the task posted is the buffer job
    with the bytes of that buffer, unchanged, and the "mimeType" and
    "encoding" strings of the object.  With no "data" property at all,
    [BufferToRefCountedBytes] is handed undefined: the run stops and no
    task is posted, with or without a default handler. *)
Theorem buffer_job_needs_buffer (request : URLRequest)
    (run : URLRequest → v8.Value) (properties : list (string * v8.Value))
    (default_protocol_handler : option ProtocolHandler) (w : World) :
  protocol_handlers_ w !! scheme (url request) = Some (JsHandler run) →
  run request = v8.Object "RequestBufferJob" properties →
  (∀ name contents,
     mate.Get "data" properties = v8.Buffer name contents →
     CustomProtocolRequestJob.GetJobTypeInUI default_protocol_handler request w =
       Returns (CreateBufferJobAndStart
                  (mate.Get_string properties "mimeType" "")
                  (mate.Get_string properties "encoding" "")
                  contents) w) ∧
  ((∀ value, ("data", value) ∉ properties) →
     CustomProtocolRequestJob.GetJobTypeInUI default_protocol_handler request w =
       Dies NotANodeBuffer w).
Proof.
  intros Hmap Hresult.
  rewrite (GetJobTypeInUI_handler _ _ _ _ Hmap).
  unfold CustomProtocolRequestJob.Run_handler, mbind, Task_bind, mret, Task_ret.
  rewrite Hresult. simpl. split.
  - intros name contents ->. reflexivity.
  - intros Hmissing. by rewrite (Get_missing _ _ Hmissing).
Qed.

(** The same for "app" registered with a handler that returns an empty
    RequestBufferJob object. *)
Lemma buffer_job_needs_buffer_witness :
  CustomProtocolRequestJob.GetJobTypeInUI None get_app
    (app_world (JsHandler (λ _, v8.Object "RequestBufferJob" [])) []) =
  Dies NotANodeBuffer
    (app_world (JsHandler (λ _, v8.Object "RequestBufferJob" [])) []).
Proof.
  apply (buffer_job_needs_buffer get_app
           (λ _, v8.Object "RequestBufferJob" []) [] None
           (app_world (JsHandler (λ _, v8.Object "RequestBufferJob" [])) [])
           eq_refl eq_refl).
  intros value Hin. inversion Hin.
Defined.
